(** * stellar-x402: facilitator client and Stellar utilities

    A shallow embedding of the facilitator client and of the Stellar
    utilities (the two documents of [lib/facilitator-client.ts]) and of the
    wire types of [x402-protocol-types], together with the properties of the
    natural-language specification stated over it.

    Conventions of the embedding:
    - a JavaScript string is a [string]: a sequence of code units below 256
      (the Latin-1 range of UTF-16);
    - a JavaScript number is an IEEE 754 binary64 value, the kernel's [float];
      decimal conversions ([parseInt], [parseFloat], [Number.prototype.toString])
      are written out over exact integer arithmetic;
    - a JavaScript value is a [value]; the fields of an object are kept in
      order, with distinct names;
    - asynchronous functions are computations in a state-and-exception monad
      over a [world] that records every network request and every timer, and
      an environment [env] that plays the facilitator, Horizon and the SDK;
      a rejected promise is a thrown exception;
    - the clock counts whole milliseconds; it advances by the latency of each
      request, and by the delay of each timer and the time by which the timer
      fires late; a difference of two clock readings is a whole number below
      2^53, which a number represents exactly;
    - the Stellar SDK is modelled as far as the library's behaviour depends on
      it: what Horizon answers and what the SDK's constructors build come from
      the environment, the SDK's own control flow is written out;
    - console output is not modelled. *)

From Stdlib Require Import ZArith List String Ascii Bool Lia Floats DecimalString.
Import ListNotations.
Open Scope string_scope.
Open Scope Z_scope.

Set Warnings "-register-all".

(** ** JavaScript strings *)

Module JsString.

(** The upper-case letters below 256: A to Z, and U+00C0 to U+00DE without
    the multiplication sign U+00D7. *)
Definition is_upper (c : ascii) : bool :=
  let n := nat_of_ascii c in
  ((65 <=? n)%nat && (n <=? 90)%nat)
  || ((192 <=? n)%nat && (n <=? 222)%nat && negb (n =? 215)%nat).

Definition lower_char (c : ascii) : ascii :=
  if is_upper c then ascii_of_nat (nat_of_ascii c + 32) else c.

(** [String.prototype.toLowerCase]. *)
Fixpoint toLowerCase (s : string) : string :=
  match s with
  | EmptyString => EmptyString
  | String c r => String (lower_char c) (toLowerCase r)
  end.

(** [strip_prefix p s] is [Some r] when [s = p ++ r]. *)
Fixpoint strip_prefix (p s : string) : option string :=
  match p, s with
  | EmptyString, _ => Some s
  | String a p', String b s' =>
      if Ascii.eqb a b then strip_prefix p' s' else None
  | String _ _, EmptyString => None
  end.

(** [String.prototype.replace] with a string pattern: only the first
    occurrence is replaced.  (The replacement strings used by the library
    contain no [$] pattern.) *)
Fixpoint replace (pat rep s : string) : string :=
  match strip_prefix pat s with
  | Some r => rep ++ r
  | None =>
      match s with
      | EmptyString => EmptyString
      | String c r => String c (replace pat rep r)
      end
  end.

(** A string is truthy when it is not empty. *)
Definition truthy (s : string) : bool :=
  match s with EmptyString => false | _ => true end.

(** White space and line terminators below 256. *)
Definition is_space (c : ascii) : bool :=
  let n := nat_of_ascii c in
  (n =? 32)%nat || ((9 <=? n)%nat && (n <=? 13)%nat) || (n =? 160)%nat.

(** Leading white space removed, as [parseInt] and [parseFloat] do. *)
Fixpoint trim_start (s : string) : string :=
  match s with
  | String c r => if is_space c then trim_start r else s
  | EmptyString => EmptyString
  end.

Definition digit_val (c : ascii) : option Z :=
  let n := nat_of_ascii c in
  if (48 <=? n)%nat && (n <=? 57)%nat then Some (Z.of_nat n - 48) else None.

Definition hex_val (c : ascii) : option Z :=
  let n := nat_of_ascii c in
  if (48 <=? n)%nat && (n <=? 57)%nat then Some (Z.of_nat n - 48)
  else if (97 <=? n)%nat && (n <=? 102)%nat then Some (Z.of_nat n - 87)
  else if (65 <=? n)%nat && (n <=? 70)%nat then Some (Z.of_nat n - 55)
  else None.

(** The longest prefix of radix digits: its value, its length, the rest. *)
Fixpoint read_digits (val : ascii -> option Z) (radix : Z) (s : string)
                     (acc : Z) (len : nat) : Z * nat * string :=
  match s with
  | String c r =>
      match val c with
      | Some d => read_digits val radix r (acc * radix + d) (S len)
      | None => (acc, len, s)
      end
  | EmptyString => (acc, len, s)
  end.

(** Decimal numeral of an integer. *)
Definition of_Z (z : Z) : string := NilZero.string_of_int (Z.to_int z).

Fixpoint zeros (n : nat) : string :=
  match n with O => "" | S m => String "0" (zeros m) end.

Fixpoint take (n : nat) (s : string) : string :=
  match n, s with
  | S m, String c r => String c (take m r)
  | _, _ => ""
  end.

Fixpoint drop (n : nat) (s : string) : string :=
  match n, s with
  | S m, String _ r => drop m r
  | _, _ => s
  end.

End JsString.

(** ** JavaScript numbers *)

Module Number.

Definition number := float.

(** The number nearest to an integer (ties to even). *)
Definition of_Z (z : Z) : number :=
  SF2Prim (binary_normalize prec emax z 0 false).

(** The number nearest to [m * 10^e], for [0 <= m]. *)
Definition of_decimal (m e : Z) : number :=
  match m with
  | Zpos p =>
      if 0 <=? e then of_Z (m * 10 ^ e)
      else SF2Prim (SFdiv prec emax (S754_finite false p 0)
                          (S754_finite false (Z.to_pos (10 ^ (- e))) 0))
  | _ => PrimFloat.zero
  end.

(** [Math.floor]. *)
Definition floor (x : number) : number :=
  match Prim2SF x with
  | S754_finite s m e =>
      if 0 <=? e then x
      else
        let z := (if s then Z.neg m else Z.pos m) / 2 ^ (- e) in
        if (z =? 0) then PrimFloat.zero else of_Z z
  | _ => x
  end.

(** *** Number.prototype.toString (radix 10)

    For a finite positive [x = num / den], [decimal_exponent] is the [n]
    with [10^(n-1) <= x < 10^n]. *)
Fixpoint count_digits (fuel : nat) (z : Z) : Z :=
  match fuel with
  | O => 0
  | S f => if z <? 10 then 1 else 1 + count_digits f (z / 10)
  end.

Fixpoint first_scale (fuel : nat) (num den : Z) (j : Z) : Z :=
  match fuel with
  | O => j
  | S f => if den <=? num * 10 ^ j then j else first_scale f num den (j + 1)
  end.

Definition decimal_exponent (num den : Z) : Z :=
  if den <=? num then count_digits 400 (num / den)
  else 1 - first_scale 400 num den 1.

(** The candidate with [k] digits: the integer [s] nearest to
    [x / 10^(n-k)] whose value [s * 10^(n-k)] reads back as [x]. *)
Definition candidate (x : number) (num den n k : Z) : option Z :=
  let sc := n - k in
  let '(p, q) := if 0 <=? sc then (num, den * 10 ^ sc)
                 else (num * 10 ^ (- sc), den) in
  let lo := p / q in
  let r := p mod q in
  let hi := if r =? 0 then lo else lo + 1 in
  let ok c := PrimFloat.Leibniz.eqb (of_decimal c sc) x in
  match ok lo, ok hi with
  | true, true =>
      match 2 * r ?= q with
      | Lt => Some lo
      | Gt => Some hi
      | Eq => Some (if Z.even lo then lo else hi)
      end
  | true, false => Some lo
  | false, true => Some hi
  | false, false => None
  end.

Fixpoint shortest (fuel : nat) (x : number) (num den n k : Z) : Z * Z :=
  match fuel with
  | O => (0, k)
  | S f =>
      match candidate x num den n k with
      | Some s => (s, k)
      | None => shortest f x num den n (k + 1)
      end
  end.

Fixpoint strip_zeros (fuel : nat) (s : Z) : Z :=
  match fuel with
  | O => s
  | S f => if (0 <? s) && (s mod 10 =? 0) then strip_zeros f (s / 10) else s
  end.

(** The digits [s] (without trailing zeros) and the exponent [n] of
    [Number::toString] for a finite positive [x]: [x] reads as
    [0.s * 10^n], with as few digits as possible. *)
Definition digits_of (x : number) : Z * Z :=
  match Prim2SF x with
  | S754_finite _ m e =>
      let '(num, den) := if 0 <=? e then (Z.pos m * 2 ^ e, 1)
                         else (Z.pos m, 2 ^ (- e)) in
      let n0 := decimal_exponent num den in
      let '(s, k) := shortest 17 x num den n0 1 in
      (strip_zeros 400 s, n0 + (count_digits 400 s - k))
  | _ => (0, 0)
  end.

Definition toString_pos (x : number) : string :=
  let '(s, n) := digits_of x in
  let ds := JsString.of_Z s in
  let k := Z.of_nat (String.length ds) in
  if (k <=? n) && (n <=? 21) then
    ds ++ JsString.zeros (Z.to_nat (n - k))
  else if (0 <? n) && (n <=? 21) then
    JsString.take (Z.to_nat n) ds ++ "." ++ JsString.drop (Z.to_nat n) ds
  else if (-6 <? n) && (n <=? 0) then
    "0." ++ JsString.zeros (Z.to_nat (- n)) ++ ds
  else
    let ex := (if 0 <=? n - 1 then "+" else "-") ++ JsString.of_Z (Z.abs (n - 1)) in
    if k =? 1 then ds ++ "e" ++ ex
    else JsString.take 1 ds ++ "." ++ JsString.drop 1 ds ++ "e" ++ ex.

(** [Number.prototype.toString()], also the conversion used by template
    literals and by [String(x)]. *)
Definition toString (x : number) : string :=
  if PrimFloat.is_nan x then "NaN"
  else if PrimFloat.is_zero x then "0"
  else if PrimFloat.is_infinity x then
    (if PrimFloat.get_sign x then "-Infinity" else "Infinity")
  else if PrimFloat.get_sign x then "-" ++ toString_pos (PrimFloat.abs x)
  else toString_pos x.

(** *** parseInt and parseFloat *)

Definition read_sign (s : string) : bool * string :=
  match s with
  | String "-" r => (true, r)
  | String "+" r => (false, r)
  | _ => (false, s)
  end.

Definition with_sign (neg : bool) (x : number) : number :=
  if neg then PrimFloat.opp x else x.

(** [parseInt(s)] with no radix: radix 16 after a [0x] prefix, else 10;
    [NaN] when no digit can be read. *)
Definition parseInt (s : string) : number :=
  let '(neg, r) := read_sign (JsString.trim_start s) in
  let '(val, radix, r) :=
    match r with
    | String "0" (String "x" r') | String "0" (String "X" r') =>
        (JsString.hex_val, 16, r')
    | _ => (JsString.digit_val, 10, r)
    end in
  let '(v, len, _) := JsString.read_digits val radix r 0 0 in
  match len with
  | O => PrimFloat.nan
  | _ => with_sign neg (of_Z v)
  end.

(** The optional exponent part [e[+-]d+]; it is read only when complete. *)
Definition read_exponent (s : string) : Z :=
  match s with
  | String c r =>
      if Ascii.eqb c "e" || Ascii.eqb c "E" then
        let '(neg, r') := read_sign r in
        let '(v, len, _) := JsString.read_digits JsString.digit_val 10 r' 0 0 in
        match len with
        | O => 0
        | _ => if neg then - v else v
        end
      else 0
  | EmptyString => 0
  end.

(** [parseFloat(s)]: the longest prefix that is a decimal literal. *)
Definition parseFloat (s : string) : number :=
  let '(neg, r) := read_sign (JsString.trim_start s) in
  match JsString.strip_prefix "Infinity" r with
  | Some _ => with_sign neg PrimFloat.infinity
  | None =>
      let '(ip, ilen, r1) := JsString.read_digits JsString.digit_val 10 r 0 0 in
      let '(m, flen, r2) :=
        match r1 with
        | String "." r' =>
            let '(m, len, r'') := JsString.read_digits JsString.digit_val 10 r' ip 0 in
            match ilen, len with
            | O, O => (ip, O, r1)
            | _, _ => (m, len, r'')
            end
        | _ => (ip, O, r1)
        end in
      match ilen, flen with
      | O, O => PrimFloat.nan
      | _, _ =>
          with_sign neg (of_decimal m (read_exponent r2 - Z.of_nat flen))
      end
  end.

(** *** Comparison with a whole number

    [lt_Z z x] is [z < x] where the left operand is the number that
    represents the whole number [z] exactly (a difference of clock
    readings): the values are compared, and the answer is [false] when [x]
    is NaN. *)
Definition lt_Z (z : Z) (x : number) : bool :=
  match Prim2SF x with
  | S754_nan => false
  | S754_infinity s => negb s
  | S754_zero _ => z <? 0
  | S754_finite s m e =>
      let v := if s then Z.neg m else Z.pos m in
      if 0 <=? e then z <? v * 2 ^ e else z * 2 ^ (- e) <? v
  end.

Definition TEN_MILLION : number := of_Z 10000000.

End Number.


(** ** JavaScript values and JSON *)

Module Js.

Inductive value : Type :=
| VUndefined
| VNull
| VBool (b : bool)
| VNum (x : Number.number)
| VStr (s : string)
| VArr (items : list value)
| VObj (fields : list (string * value)).

(** Exceptions: an [Error] instance with its [message] and, for the errors
    of an HTTP client, the [response] (status and body) it carries; or any
    other thrown value, kept as its string conversion. *)
Inductive exn : Type :=
| JsError (message : string) (response : option (Z * value))
| JsThrown (shown : string).

(** [error instanceof Error ? error.message : String(error)] *)
Definition message_of (e : exn) : string :=
  match e with
  | JsError m _ => m
  | JsThrown s => s
  end.

(** [error.response?.status] *)
Definition response_status (e : exn) : option Z :=
  match e with
  | JsError _ (Some (st, _)) => Some st
  | _ => None
  end.

(** [error.response?.data] *)
Definition response_data (e : exn) : value :=
  match e with
  | JsError _ (Some (_, d)) => d
  | _ => VUndefined
  end.

Definition truthy (v : value) : bool :=
  match v with
  | VUndefined | VNull => false
  | VBool b => b
  | VNum x => negb (PrimFloat.is_nan x || PrimFloat.is_zero x)
  | VStr s => JsString.truthy s
  | VArr _ | VObj _ => true
  end.

(** [a || b] *)
Definition or_else (a b : value) : value := if truthy a then a else b.

Fixpoint lookup (k : string) (fs : list (string * value)) : value :=
  match fs with
  | [] => VUndefined
  | (k', v) :: r => if String.eqb k k' then v else lookup k r
  end.

(** Property read [v.k] for the property names the library uses (none of
    them is defined on a primitive or an array): a [TypeError] on
    [null] and [undefined]. *)
Definition type_error (what k : string) : exn :=
  JsError ("Cannot read properties of " ++ what ++ " (reading '" ++ k ++ "')") None.

Definition get (v : value) (k : string) : exn + value :=
  match v with
  | VUndefined => inl (type_error "undefined" k)
  | VNull => inl (type_error "null" k)
  | VObj fs => inr (lookup k fs)
  | _ => inr VUndefined
  end.

(** Optional chaining [v?.k]. *)
Definition get_opt (v : value) (k : string) : value :=
  match get v k with
  | inr x => x
  | inl _ => VUndefined
  end.

(** *** JSON.stringify *)

Definition hex_digit (n : nat) : ascii :=
  ascii_of_nat (if (n <? 10)%nat then 48 + n else 87 + n).

Definition quote_char (c : ascii) : string :=
  let n := nat_of_ascii c in
  if (n =? 34)%nat then "\" ++ String c ""
  else if (n =? 92)%nat then "\\"
  else if (n =? 8)%nat then "\b"
  else if (n =? 9)%nat then "\t"
  else if (n =? 10)%nat then "\n"
  else if (n =? 12)%nat then "\f"
  else if (n =? 13)%nat then "\r"
  else if (n <? 32)%nat then
    "\u00" ++ String (hex_digit (n / 16)) (String (hex_digit (n mod 16)) "")
  else String c "".

Fixpoint quote_body (s : string) : string :=
  match s with
  | EmptyString => ""
  | String c r => quote_char c ++ quote_body r
  end.

Definition dquote : string := String (ascii_of_nat 34) "".

Definition quote (s : string) : string := dquote ++ quote_body s ++ dquote.

Fixpoint join (sep : string) (l : list string) : string :=
  match l with
  | [] => ""
  | [x] => x
  | x :: r => x ++ sep ++ join sep r
  end.

(** The members of an object: a property whose value has no JSON text
    ([undefined]) is left out. *)
Definition members_with (text : value -> option string)
  : list (string * value) -> list string :=
  fix go fs :=
    match fs with
    | [] => []
    | (k, v) :: r =>
        match text v with
        | Some t => (quote k ++ ":" ++ t) :: go r
        | None => go r
        end
    end.

(** [None] stands for the result [undefined]. *)
Fixpoint stringify (v : value) : option string :=
  match v with
  | VUndefined => None
  | VNull => Some "null"
  | VBool true => Some "true"
  | VBool false => Some "false"
  | VNum x => Some (if PrimFloat.is_finite x then Number.toString x else "null")
  | VStr s => Some (quote s)
  | VArr items =>
      let item v := match stringify v with Some t => t | None => "null" end in
      Some ("[" ++ join "," (map item items) ++ "]")
  | VObj fields =>
      Some ("{" ++ join "," (members_with stringify fields) ++ "}")
  end.

(** A value inside a template literal. *)
Definition template (o : option string) : string :=
  match o with Some t => t | None => "undefined" end.

End Js.

Import Js.

(** ** Protocol type definitions ([x402-protocol-types.ts])

    An interface is embedded as the predicate "this value has that type":
    required fields present with the declared type, optional fields absent
    or of the declared type.  Further fields are allowed, as in TypeScript. *)

Module ProtocolTypes.

Definition is_string (v : value) : bool :=
  match v with VStr _ => true | _ => false end.
Definition is_number (v : value) : bool :=
  match v with VNum _ => true | _ => false end.
Definition is_boolean (v : value) : bool :=
  match v with VBool _ => true | _ => false end.
Definition is_null (v : value) : bool :=
  match v with VNull => true | _ => false end.
Definition is_undefined (v : value) : bool :=
  match v with VUndefined => true | _ => false end.
Definition is_object (v : value) : bool :=
  match v with VObj _ | VArr _ => true | _ => false end.

Definition or_null (ty : value -> bool) (v : value) : bool :=
  ty v || is_null v.
Definition optional (ty : value -> bool) (v : value) : bool :=
  ty v || is_undefined v.

(** The field [k] of [v] has type [ty]. *)
Definition field (ty : value -> bool) (k : string) (v : value) : bool :=
  match v with
  | VObj fs => ty (lookup k fs)
  | _ => false
  end.

Definition PaymentRequirements (v : value) : bool :=
  field is_string "scheme" v &&
  field is_string "network" v &&
  field is_string "maxAmountRequired" v &&
  field is_string "resource" v &&
  field is_string "description" v &&
  field is_string "mimeType" v &&
  field (optional (or_null is_object)) "outputSchema" v &&
  field is_string "payTo" v &&
  field is_number "maxTimeoutSeconds" v &&
  field (optional (or_null is_object)) "extra" v.

Definition VerifyRequest (v : value) : bool :=
  field is_number "x402Version" v &&
  field is_string "paymentHeader" v &&
  field PaymentRequirements "paymentRequirements" v.

Definition VerifyResponse (v : value) : bool :=
  field is_boolean "isValid" v &&
  field (or_null is_string) "invalidReason" v.

Definition SettleRequest (v : value) : bool :=
  field is_number "x402Version" v &&
  field is_string "paymentHeader" v &&
  field PaymentRequirements "paymentRequirements" v.

Definition SettleResponse (v : value) : bool :=
  field is_boolean "success" v &&
  field (or_null is_string) "error" v &&
  field (or_null is_string) "txHash" v &&
  field (or_null is_string) "networkId" v.

Definition PaymentResponseHeader (v : value) : bool :=
  field SettleResponse "settlement" v.

Definition X402_VERSION : Z := 1.
Definition STELLAR_SCHEME : string := "stellar-payment".

Definition STELLAR_MAINNET : string := "stellar-mainnet".
Definition STELLAR_TESTNET : string := "stellar-testnet".
Definition STELLAR_FUTURENET : string := "stellar-futurenet".

(** [NETWORK_PASSPHRASES], a [Record<string, string>]. *)
Definition NETWORK_PASSPHRASES : list (string * string) :=
  [ (STELLAR_MAINNET, "Public Global Stellar Network ; September 2015");
    (STELLAR_TESTNET, "Test SDF Network ; September 2015");
    (STELLAR_FUTURENET, "Test SDF Future Network ; October 2022") ].

(** [NETWORK_PASSPHRASES[k]]; [None] is [undefined]. *)
Fixpoint passphrase_of (k : string) (tbl : list (string * string)) : option string :=
  match tbl with
  | [] => None
  | (k', p) :: r => if String.eqb k k' then Some p else passphrase_of k r
  end.

End ProtocolTypes.

(** ** The outside world: network, clock and SDK *)

Module World.

(** *** Stellar SDK data *)

(** A key pair; one made from a public key alone has no secret key. *)
Record Keypair := { publicKey : string; secret : option string }.

Record BalanceLine := { asset_type : string; balance : string }.

Record AccountResponse :=
  { account_id : string;
    sequence : Z;
    balances : list BalanceLine;
    data_attr : list (string * string) }.

Inductive Asset := Native | Credit (code issuer : string).

(** A payment operation as the SDK holds it: the amount is in the SDK's own
    form, with seven decimals. *)
Record PaymentOp :=
  { destination : string; asset : Asset; amount : string }.

Record Transaction :=
  { tx_source : string;
    tx_sequence : Z;
    tx_fee : string;
    tx_networkPassphrase : string;
    tx_operations : list PaymentOp;
    tx_memo : option string;
    tx_timeout : Z;
    tx_signatures : list (string * string) }.

(** Horizon's transaction and operation records, with the fields read by
    the library; a field that a record lacks is [None]. *)
Record TransactionRecord :=
  { successful : bool; source_account : string }.

Record OperationRecord :=
  { op_type : string;
    op_asset_type : option string;
    op_to : option string;
    op_amount : option string }.

(** [new Horizon.Server(url, { allowHttp })] *)
Record Server := { serverURL : string; allowHttp : bool }.

(** *** Network requests and timers *)

Inductive request :=
| Fetch (url method : string) (headers : list (string * string))
        (body : option string)
| LoadAccount (server : Server) (accountId : string)
| SubmitTransaction (server : Server) (tx : Transaction)
| GetTransaction (server : Server) (hash : string)
| GetOperations (server : Server) (hash : string).

Inductive event :=
| Net (r : request)
| Sleep (ms : Z).

(** The clock in milliseconds and everything done so far, latest first. *)
Record world := { now : Z; log : list event }.

(** A fetch response: its status and what [response.json()] gives. *)
Record Response := { status : Z; json : exn + value }.

(** [response.ok] *)
Definition ok (r : Response) : bool :=
  (200 <=? status r) && (status r <=? 299).

(** The environment answers every request, depending on the state of the
    world when the request is made, and takes [latency] milliseconds to do
    so; a timer fires [timer_lag] milliseconds after its delay.  The SDK's
    validating constructors ([Keypair.fromSecret], [Operation.payment]) and
    the signature of a key pair that has a secret key are part of it. *)
Record env :=
  { net_fetch : world -> string -> option string -> exn + Response;
    net_loadAccount : world -> Server -> string -> exn + AccountResponse;
    net_submitTransaction : world -> Server -> Transaction -> exn + string;
    net_transaction : world -> Server -> string -> exn + TransactionRecord;
    net_operations : world -> Server -> string -> exn + list OperationRecord;
    latency : world -> request -> N;
    timer_lag : world -> Z -> N;
    sdk_fromSecret : string -> exn + Keypair;
    sdk_payment : string -> string -> exn + PaymentOp;
    sdk_sign : Keypair -> Transaction -> string }.

(** *** Computations *)

Inductive res (A : Type) : Type :=
| Ok (a : A)
| Throw (e : exn)
| OutOfFuel.
Arguments Ok {A} a.
Arguments Throw {A} e.
Arguments OutOfFuel {A}.

Definition M (A : Type) : Type := env -> world -> res A * world.

Definition ret {A} (a : A) : M A := fun _ w => (Ok a, w).

Definition throw {A} (e : exn) : M A := fun _ w => (Throw e, w).

Definition bind {A B} (m : M A) (k : A -> M B) : M B :=
  fun E w =>
    match m E w with
    | (Ok a, w') => k a E w'
    | (Throw e, w') => (Throw e, w')
    | (OutOfFuel, w') => (OutOfFuel, w')
    end.

(** [try { m } catch (e) { h e }] *)
Definition try_catch {A} (m : M A) (h : exn -> M A) : M A :=
  fun E w =>
    match m E w with
    | (Throw e, w') => h e E w'
    | r => r
    end.

(** A value or an exception computed without effect. *)
Definition lift {A} (r : exn + A) : M A :=
  match r with
  | inr a => ret a
  | inl e => throw e
  end.

(** The world after a request: the request is logged and has taken its
    latency. *)
Definition after_request (E : env) (w : world) (r : request) : world :=
  {| now := now w + Z.of_N (latency E w r); log := Net r :: log w |}.

(** One network request: it returns or throws what the environment answers
    in the world where it is made. *)
Definition call {A} (r : request) (answer : env -> world -> exn + A) : M A :=
  fun E w =>
    match answer E w with
    | inr a => (Ok a, after_request E w r)
    | inl e => (Throw e, after_request E w r)
    end.

(** [Date.now()] *)
Definition date_now : M Z := fun _ w => (Ok (now w), w).

(** The world after a timer of [ms] milliseconds: the timer is logged, and
    has fired after its delay or later. *)
Definition slept (E : env) (ms : Z) (w : world) : world :=
  {| now := now w + ms + Z.of_N (timer_lag E w ms); log := Sleep ms :: log w |}.

(** [await new Promise(resolve => setTimeout(resolve, ms))] *)
Definition sleep (ms : Z) : M unit := fun E w => (Ok tt, slept E ms w).

Definition is_net (e : event) : bool :=
  match e with Net _ => true | Sleep _ => false end.

(** Number of network requests made so far. *)
Definition requests (w : world) : nat := List.length (filter is_net (log w)).

End World.

Import World.

Declare Scope js_scope.
Delimit Scope js_scope with js.
Notation "x <- m ;; k" := (bind m (fun x => k))
  (at level 61, m at next level, right associativity) : js_scope.
Notation "m ;;; k" := (bind m (fun _ => k))
  (at level 61, right associativity) : js_scope.

Open Scope js_scope.

(** A default parameter value: used when the argument is [undefined]. *)
Definition default_to {A} (d : A) (o : option A) : A :=
  match o with Some a => a | None => d end.

(** An optional string argument is "provided" when it is truthy. *)
Definition provided (o : option string) : bool :=
  match o with Some s => JsString.truthy s | None => false end.

(** ** The facilitator client ([facilitator-client.ts]) *)

Module FacilitatorClient.

Import ProtocolTypes.

(** The legacy interfaces declared in the module. *)
Definition VerifyPaymentRequest (v : value) : bool :=
  field is_string "signedTransaction" v &&
  field is_string "expectedRecipient" v &&
  field is_string "expectedAmount" v &&
  field is_string "expectedNetwork" v.

Definition VerifyPaymentResponse (v : value) : bool :=
  field is_boolean "valid" v &&
  field (optional is_string) "error" v &&
  field (optional is_string) "message" v.

Definition SettlePaymentResponse (v : value) : bool :=
  field is_boolean "settled" v &&
  field (optional is_string) "transactionHash" v &&
  field (optional is_string) "amount" v &&
  field (optional is_string) "recipient" v &&
  field (optional is_string) "network" v &&
  field (optional is_string) "timestamp" v &&
  field (optional is_string) "status" v &&
  field (optional is_string) "error" v &&
  field (optional is_string) "message" v.

Definition json_headers : list (string * string) :=
  [("Content-Type", "application/json")].

(** [fetch(url, { method: "POST", headers, body })] *)
Definition fetch_post (url : string) (body : option string) : M Response :=
  call (Fetch url "POST" json_headers body)
       (fun E w => net_fetch E w url body).

Definition verifyPayment
    (facilitatorUrl signedTransaction expectedRecipient expectedAmount : string)
    (expectedNetwork : option string) : M value :=
  let expectedNetwork := default_to "stellar-testnet" expectedNetwork in
  try_catch
    (response <- fetch_post facilitatorUrl
                   (stringify (VObj [ ("signedTransaction", VStr signedTransaction);
                                      ("expectedRecipient", VStr expectedRecipient);
                                      ("expectedAmount", VStr expectedAmount);
                                      ("expectedNetwork", VStr expectedNetwork) ])) ;;
     data <- lift (json response) ;;
     if negb (ok response) then
       error <- lift (get data "error") ;;
       message <- lift (get data "message") ;;
       ret (VObj [ ("valid", VBool false);
                   ("error", or_else error (VStr "Verification failed"));
                   ("message", or_else message
                                 (VStr ("HTTP " ++ JsString.of_Z (status response)))) ])
     else ret data)
    (fun error =>
       ret (VObj [ ("valid", VBool false);
                   ("error", VStr "Network error");
                   ("message", VStr (message_of error)) ])).

Definition settlePayment
    (facilitatorUrl signedTransaction : string)
    (expectedNetwork : option string) : M value :=
  let expectedNetwork := default_to "stellar-testnet" expectedNetwork in
  try_catch
    (response <- fetch_post facilitatorUrl
                   (stringify (VObj [ ("signedTransaction", VStr signedTransaction);
                                      ("expectedNetwork", VStr expectedNetwork) ])) ;;
     data <- lift (json response) ;;
     if negb (ok response) then
       error <- lift (get data "error") ;;
       message <- lift (get data "message") ;;
       ret (VObj [ ("settled", VBool false);
                   ("error", or_else error (VStr "Settlement failed"));
                   ("message", or_else message
                                 (VStr ("HTTP " ++ JsString.of_Z (status response)))) ])
     else ret data)
    (fun error =>
       ret (VObj [ ("settled", VBool false);
                   ("error", VStr "Network error");
                   ("message", VStr (message_of error)) ])).

Definition createPaymentResponse (settlementResult : value) : M value :=
  transactionHash <- lift (get settlementResult "transactionHash") ;;
  amount <- lift (get settlementResult "amount") ;;
  recipient <- lift (get settlementResult "recipient") ;;
  network <- lift (get settlementResult "network") ;;
  timestamp <- lift (get settlementResult "timestamp") ;;
  status <- lift (get settlementResult "status") ;;
  ret (VObj [ ("transactionHash", transactionHash);
              ("amount", amount);
              ("currency", VStr "XLM");
              ("recipient", recipient);
              ("network", network);
              ("timestamp", timestamp);
              ("status", status) ]).

Definition url_required : exn :=
  JsError "Facilitator URL is required - no default available" None.

Definition verifyPaymentSimple
    (facilitatorUrl signedTransaction expectedRecipient expectedAmount : string)
    (expectedNetwork : option string) : M value :=
  let expectedNetwork := default_to "stellar-testnet" expectedNetwork in
  if negb (JsString.truthy facilitatorUrl) then throw url_required
  else verifyPayment (facilitatorUrl ++ "/verify") signedTransaction
                     expectedRecipient expectedAmount (Some expectedNetwork).

Definition settlePaymentSimple
    (facilitatorUrl signedTransaction : string)
    (expectedNetwork : option string) : M value :=
  let expectedNetwork := default_to "stellar-testnet" expectedNetwork in
  if negb (JsString.truthy facilitatorUrl) then throw url_required
  else settlePayment (facilitatorUrl ++ "/settle") signedTransaction
                     (Some expectedNetwork).

End FacilitatorClient.

(** ** The Stellar SDK, where its control flow matters

    What the SDK does between the library's calls and Horizon:
    [transaction.sign], [Horizon.Memo] and [server.submitTransaction]. *)

Module Sdk.

(** The SDK's [Horizon] namespace exports no [Memo]: [Horizon.Memo] is
    [undefined]. *)
Definition Horizon_Memo : value := VUndefined.

(** [Horizon.Memo.text(memo)]: the property [text] is read first. *)
Definition Horizon_Memo_text (memo : string) : exn + string :=
  match get Horizon_Memo "text" with
  | inl e => inl e
  | inr _ => inr memo
  end.

Definition cannot_sign : exn :=
  JsError "cannot sign: no secret key available" None.

(** [transaction.sign(keypair)]: a key pair without a secret key cannot
    sign; otherwise the signature is appended. *)
Definition sign (kp : Keypair) (tx : Transaction) : M Transaction :=
  match secret kp with
  | None => throw cannot_sign
  | Some _ =>
      fun E =>
        ret {| tx_source := tx_source tx;
               tx_sequence := tx_sequence tx;
               tx_fee := tx_fee tx;
               tx_networkPassphrase := tx_networkPassphrase tx;
               tx_operations := tx_operations tx;
               tx_memo := tx_memo tx;
               tx_timeout := tx_timeout tx;
               tx_signatures := tx_signatures tx ++ [(publicKey kp, sdk_sign E kp tx)] |} E
  end.

(** [e instanceof NotFoundError]: the error of a request that Horizon
    answers with status 404. *)
Definition is_NotFoundError (e : exn) : bool :=
  match response_status e with
  | Some st => st =? 404
  | None => false
  end.

Fixpoint data_entry (k : string) (attrs : list (string * string)) : option string :=
  match attrs with
  | [] => None
  | (k', v) :: r => if String.eqb k k' then Some v else data_entry k r
  end.

(** [account.data_attr["config.memo_required"] === "MQ=="] *)
Definition requires_memo (account : AccountResponse) : bool :=
  match data_entry "config.memo_required" (data_attr account) with
  | Some v => String.eqb v "MQ=="
  | None => false
  end.

Definition account_requires_memo : exn := JsError "account requires memo" None.

(** [destination.startsWith("M")]: a multiplexed address. *)
Definition is_muxed (destination : string) : bool :=
  match JsString.strip_prefix "M" destination with
  | Some _ => true
  | None => false
  end.

(** The loop of [server.checkMemoRequired] over the operations, all of them
    payments: each destination that is new and not multiplexed is loaded; an
    account that Horizon does not know is passed over, any other error is
    thrown, and so is the error for an account that requires a memo. *)
Fixpoint check_destinations (horizon : Server) (operations : list PaymentOp)
    (destinations : list string) : M unit :=
  match operations with
  | [] => ret tt
  | operation :: rest =>
      let destination := destination operation in
      if existsb (String.eqb destination) destinations then
        check_destinations horizon rest destinations
      else if is_muxed destination then
        check_destinations horizon rest (destination :: destinations)
      else
        try_catch
          (account <- call (LoadAccount horizon destination)
                        (fun E w => net_loadAccount E w horizon destination) ;;
           if requires_memo account then throw account_requires_memo
           else ret tt)
          (fun e => if is_NotFoundError e then ret tt else throw e) ;;;
        check_destinations horizon rest (destination :: destinations)
  end.

(** [server.checkMemoRequired(transaction)]: nothing is checked for a
    transaction that has a memo. *)
Definition checkMemoRequired (horizon : Server) (tx : Transaction) : M unit :=
  match tx_memo tx with
  | Some _ => ret tt
  | None => check_destinations horizon (tx_operations tx) []
  end.

(** [server.submitTransaction(transaction)]: the memo-required check, then
    the transaction is posted; the result is the [hash] of Horizon's
    answer. *)
Definition submitTransaction (horizon : Server) (tx : Transaction) : M string :=
  checkMemoRequired horizon tx ;;;
  call (SubmitTransaction horizon tx)
       (fun E w => net_submitTransaction E w horizon tx).

End Sdk.

(** ** Stellar utilities (the second document of [facilitator-client.ts]) *)

(** The SDK's [Networks] constants, with the values that the source records
    next to each use. *)
Module Networks.
Definition PUBLIC : string := "Public Global Stellar Network ; September 2015".
Definition TESTNET : string := "Test SDF Network ; September 2015".
Definition FUTURENET : string := "Test SDF Future Network ; October 2022".
Definition STANDALONE : string := "Standalone Network ; February 2017".
End Networks.

Module StellarUtils.

(** The SDK's [BASE_FEE], in stroops. *)
Definition BASE_FEE : string := "100".

Definition getHorizonClient (network : option string) : Server :=
  let network := default_to "stellar-testnet" network in
  let normalizedNetwork :=
    JsString.replace "public" "mainnet"
      (JsString.replace "stellar-" "" (JsString.toLowerCase network)) in
  if String.eqb normalizedNetwork "mainnet" then
    {| serverURL := "https://horizon.stellar.org"; allowHttp := false |}
  else if String.eqb normalizedNetwork "testnet" then
    {| serverURL := "https://horizon-testnet.stellar.org"; allowHttp := false |}
  else if String.eqb normalizedNetwork "futurenet" then
    {| serverURL := "https://horizon-futurenet.stellar.org"; allowHttp := false |}
  else if String.eqb normalizedNetwork "local"
          || String.eqb normalizedNetwork "standalone" then
    {| serverURL := "http://localhost:8000"; allowHttp := true |}
  else
    {| serverURL := "https://horizon-testnet.stellar.org"; allowHttp := false |}.

Definition getNetworkPassphrase (network : option string) : string :=
  let network := default_to "stellar-testnet" network in
  let normalizedNetwork :=
    JsString.replace "public" "mainnet"
      (JsString.replace "stellar-" "" (JsString.toLowerCase network)) in
  if String.eqb normalizedNetwork "mainnet" then Networks.PUBLIC
  else if String.eqb normalizedNetwork "testnet" then Networks.TESTNET
  else if String.eqb normalizedNetwork "futurenet" then Networks.FUTURENET
  else if String.eqb normalizedNetwork "local"
          || String.eqb normalizedNetwork "standalone" then Networks.STANDALONE
  else Networks.TESTNET.

Definition getKeypairFromSecret (secretKey : string) : M Keypair :=
  try_catch
    (fun E => lift (sdk_fromSecret E secretKey) E)
    (fun error =>
       throw (JsError ("Invalid Stellar secret key: " ++ message_of error) None)).

Definition buildPaymentTransaction
    (sourceKeypair : Keypair) (destinationAddress amount : string)
    (network memo : option string) : M Transaction :=
  let network := default_to "stellar-testnet" network in
  let horizon := getHorizonClient (Some network) in
  let networkPassphrase := getNetworkPassphrase (Some network) in
  sourceAccount <- call (LoadAccount horizon (publicKey sourceKeypair))
                     (fun E w => net_loadAccount E w horizon (publicKey sourceKeypair)) ;;
  payment <- (fun E => lift (sdk_payment E destinationAddress amount) E) ;;
  memoText <- (if provided memo
               then (t <- lift (Sdk.Horizon_Memo_text (default_to "" memo)) ;;
                     ret (Some t))
               else ret None) ;;
  ret {| tx_source := account_id sourceAccount;
         tx_sequence := sequence sourceAccount + 1;
         tx_fee := BASE_FEE;
         tx_networkPassphrase := networkPassphrase;
         tx_operations := [ payment ];
         tx_memo := memoText;
         tx_timeout := 180;
         tx_signatures := [] |}.

Definition signAndSubmitPayment
    (sourceKeypair : Keypair) (destinationAddress amount : string)
    (network memo : option string) : M string :=
  let network := default_to "stellar-testnet" network in
  let horizon := getHorizonClient (Some network) in
  transaction <- buildPaymentTransaction sourceKeypair destinationAddress
                   amount (Some network) memo ;;
  transaction <- Sdk.sign sourceKeypair transaction ;;
  try_catch
    (Sdk.submitTransaction horizon transaction)
    (fun error =>
       if truthy (response_data error) then
         extras <- lift (get (response_data error) "extras") ;;
         throw (JsError ("Transaction failed: "
                         ++ template (stringify (get_opt extras "result_codes")))
                        None)
       else throw error).

Definition is_native (b : BalanceLine) : bool :=
  String.eqb (asset_type b) "native".

Definition getAccountBalance (accountAddress : string)
    (network : option string) : M string :=
  let network := default_to "stellar-testnet" network in
  try_catch
    (let horizon := getHorizonClient (Some network) in
     account <- call (LoadAccount horizon accountAddress)
                  (fun E w => net_loadAccount E w horizon accountAddress) ;;
     match find is_native (balances account) with
     | None => ret "0"
     | Some nativeBalance =>
         let xlmAmount := Number.parseFloat (balance nativeBalance) in
         let stroops := Number.floor (PrimFloat.mul xlmAmount Number.TEN_MILLION) in
         ret (Number.toString stroops)
     end)
    (fun _ => ret "0").

(** [op.type === "payment" && op.asset_type === "native"] *)
Definition is_native_payment (op : OperationRecord) : bool :=
  String.eqb (op_type op) "payment" &&
  match op_asset_type op with
  | Some a => String.eqb a "native"
  | None => false
  end.

(** [field !== expected] *)
Definition differs (field : option string) (expected : string) : bool :=
  match field with
  | Some s => negb (String.eqb s expected)
  | None => true
  end.

Definition verifyTransaction (transactionHash : string)
    (network expectedSender expectedRecipient expectedAmount : option string)
  : M bool :=
  let network := default_to "stellar-testnet" network in
  try_catch
    (let horizon := getHorizonClient (Some network) in
     transaction <- call (GetTransaction horizon transactionHash)
                      (fun E w => net_transaction E w horizon transactionHash) ;;
     if negb (successful transaction) then ret false
     else if negb (provided expectedSender) && negb (provided expectedRecipient)
             && negb (provided expectedAmount) then ret true
     else if provided expectedSender
             && differs (Some (source_account transaction))
                        (default_to "" expectedSender) then ret false
     else
       operations <- call (GetOperations horizon transactionHash)
                       (fun E w => net_operations E w horizon transactionHash) ;;
       match find is_native_payment operations with
       | None => ret false
       | Some paymentOp =>
           if provided expectedRecipient
              && differs (op_to paymentOp) (default_to "" expectedRecipient)
           then ret false
           else if provided expectedAmount
                   && differs (op_amount paymentOp) (default_to "" expectedAmount)
           then ret false
           else ret true
       end)
    (fun _ => ret false).

Definition timeout_error (timeoutSeconds : Number.number) : exn :=
  JsError ("Transaction not found after " ++ Number.toString timeoutSeconds
           ++ " seconds") None.

(** [error.response?.status === 404] *)
Definition is_not_found (error : exn) : bool :=
  match response_status error with
  | Some st => st =? 404
  | None => false
  end.

(** The [while] loop of [waitForTransaction]; [fuel] bounds the number of
    times the loop condition is evaluated, and the loop has not ended by
    then when the result is [OutOfFuel]. *)
Fixpoint waitForTransaction_loop (fuel : nat) (horizon : Server)
    (transactionHash : string) (startTime : Z)
    (timeoutMs timeoutSeconds : Number.number) : M bool :=
  match fuel with
  | O => fun _ w => (OutOfFuel, w)
  | S fuel' =>
      t <- date_now ;;
      if Number.lt_Z (t - startTime) timeoutMs then
        try_catch
          (transaction <- call (GetTransaction horizon transactionHash)
                            (fun E w => net_transaction E w horizon transactionHash) ;;
           ret (successful transaction))
          (fun error =>
             if is_not_found error then
               (sleep 1000 ;;;
                waitForTransaction_loop fuel' horizon transactionHash
                  startTime timeoutMs timeoutSeconds)
             else throw error)
      else throw (timeout_error timeoutSeconds)
  end.

(** The loop need not end (an infinite timeout, a transaction that Horizon
    never knows), so the function takes the [fuel] of its loop. *)
Definition waitForTransaction (fuel : nat) (transactionHash : string)
    (network : option string) (timeoutSeconds : option Number.number) : M bool :=
  let network := default_to "stellar-testnet" network in
  let timeoutSeconds := default_to (Number.of_Z 30) timeoutSeconds in
  let horizon := getHorizonClient (Some network) in
  startTime <- date_now ;;
  let timeoutMs := PrimFloat.mul timeoutSeconds (Number.of_Z 1000) in
  waitForTransaction_loop fuel horizon transactionHash startTime timeoutMs
    timeoutSeconds.

Definition xlmToStroops (xlm : string) : string :=
  let xlmAmount := Number.parseFloat xlm in
  let stroops := Number.floor (PrimFloat.mul xlmAmount Number.TEN_MILLION) in
  Number.toString stroops.

Definition stroopsToXlm (stroops : string) : string :=
  let stroopsAmount := Number.parseInt stroops in
  let xlm := PrimFloat.div stroopsAmount Number.TEN_MILLION in
  Number.toString xlm.

End StellarUtils.

Import ProtocolTypes FacilitatorClient StellarUtils.


(** ** Which Stellar network a server or a passphrase belongs to

    Used to state that [getHorizonClient] and [getNetworkPassphrase] agree. *)

Module NetworkSpec.

Inductive network := Mainnet | Testnet | Futurenet | Standalone.

Definition network_of_server (h : Server) : option network :=
  if String.eqb (serverURL h) "https://horizon.stellar.org" then Some Mainnet
  else if String.eqb (serverURL h) "https://horizon-testnet.stellar.org" then Some Testnet
  else if String.eqb (serverURL h) "https://horizon-futurenet.stellar.org" then Some Futurenet
  else if String.eqb (serverURL h) "http://localhost:8000" then Some Standalone
  else None.

Definition network_of_passphrase (p : string) : option network :=
  if String.eqb p Networks.PUBLIC then Some Mainnet
  else if String.eqb p Networks.TESTNET then Some Testnet
  else if String.eqb p Networks.FUTURENET then Some Futurenet
  else if String.eqb p Networks.STANDALONE then Some Standalone
  else None.

(** The normalisation in the words of the specification: lower case, the
    first ["stellar-"] removed, the first ["public"] rewritten. *)
Definition normalized (network : option string) : string :=
  JsString.replace "public" "mainnet"
    (JsString.replace "stellar-" ""
       (JsString.toLowerCase (default_to "stellar-testnet" network))).

(** The network that a normalised name stands for; unknown names stand for
    the test network. *)
Definition network_of_name (n : string) : network :=
  if String.eqb n "mainnet" then Mainnet
  else if String.eqb n "testnet" then Testnet
  else if String.eqb n "futurenet" then Futurenet
  else if String.eqb n "local" || String.eqb n "standalone" then Standalone
  else Testnet.

End NetworkSpec.

Import NetworkSpec.

(** ** The polling loop and the verification, in the words of the
    specification *)

Module Spec.


(** The time limit of a timeout, in whole milliseconds: the least whole
    number that is not below the timeout; 0 for a timeout that no elapsed
    time is below (NaN, minus infinity), and none for an infinite timeout. *)
Definition limit_ms (timeoutMs : Number.number) : option Z :=
  match Prim2SF timeoutMs with
  | S754_nan => Some 0
  | S754_infinity true => Some 0
  | S754_infinity false => None
  | S754_zero _ => Some 0
  | S754_finite s m e =>
      let v := if s then Z.neg m else Z.pos m in
      Some (if 0 <=? e then v * 2 ^ e else - ((- v) / 2 ^ (- e)))
  end.

(** No retry: the events are requests, no two of them the same, no timer. *)
Definition no_retry (evs : list event) : Prop :=
  NoDup evs /\ Forall (fun e => is_net e = true) evs.

(** The events that [m] adds to the log. *)
Definition adds {A} (m : M A) (E : env) (w : world) (evs : list event) : Prop :=
  log (snd (m E w)) = (evs ++ log w)%list.

(** Whatever the environment, [m] makes at most [k] requests, none of them
    twice, and sets no timer. *)
Definition few_requests (k : nat) {A} (m : M A) : Prop :=
  forall E w, exists evs,
    adds m E w evs /\ no_retry evs /\ (List.length evs <= k)%nat.

(** Whatever the environment, [m] makes at most [k] requests and sets no
    timer. *)
Definition no_timer (k : nat) {A} (m : M A) : Prop :=
  forall E w, exists evs,
    adds m E w evs /\ Forall (fun e => is_net e = true) evs
    /\ (List.length evs <= k)%nat.

(** Whatever the environment, [m] makes at most [k] requests. *)
Definition at_most (k : nat) {A} (m : M A) : Prop :=
  forall E w, (requests (snd (m E w)) <= requests w + k)%nat.

(** A provided expectation matches the actual value. *)
Definition matches (expected actual : option string) : Prop :=
  provided expected = true -> actual = expected.

(** The transaction [hash] is verified: its lookup succeeds, it was
    successful, and either no expectation is provided, or the provided
    sender matches its source account, the lookup of its operations succeeds
    and finds a native payment, and the provided recipient and amount match
    the first such payment. *)
Definition verified (E : env) (w : world) (hash : string)
    (network expectedSender expectedRecipient expectedAmount : option string)
  : Prop :=
  let horizon := getHorizonClient network in
  exists tx,
    net_transaction E w horizon hash = inr tx
    /\ successful tx = true
    /\ ((provided expectedSender = false /\ provided expectedRecipient = false
         /\ provided expectedAmount = false)
        \/ (matches expectedSender (Some (source_account tx))
            /\ exists ops payment,
                net_operations E (after_request E w (GetTransaction horizon hash))
                  horizon hash = inr ops
                /\ find is_native_payment ops = Some payment
                /\ matches expectedRecipient (op_to payment)
                /\ matches expectedAmount (op_amount payment))).

(** Polling passes that may still query, for [left] milliseconds left. *)
Definition passes_left (left : Z) : nat := Z.to_nat ((left + 999) / 1000).

(** [sub] occurs in [s]. *)
Definition occurs (sub s : string) : Prop := exists p q, s = p ++ sub ++ q.

Fixpoint occursb (sub s : string) : bool :=
  match JsString.strip_prefix sub s with
  | Some _ => true
  | None =>
      match s with
      | EmptyString => false
      | String _ r => occursb sub r
      end
  end.

End Spec.

Import Spec.

(** ** What a failed call looks like, and concrete environments *)

Module Scenarios.

(** A facilitator call fails when [fetch] throws or the response is not ok. *)
Definition call_failed (reply : exn + Response) : Prop :=
  match reply with
  | inl _ => True
  | inr r => ok r = false
  end.

(** The result of a failed call: the flag [flag] is [false], with an [error]
    that is truthy, and a [message].  The error is ["Network error"], the
    function's own fallback, or the [error] of the facilitator's JSON body. *)
Definition failure_result (flag fallback : string) (reply : exn + Response)
    (v : value) : Prop :=
  exists err msg,
    v = VObj [ (flag, VBool false); ("error", err); ("message", msg) ]
    /\ truthy err = true
    /\ (err = VStr "Network error" \/ err = VStr fallback
        \/ exists r data, reply = inr r /\ json r = inr data
                          /\ get data "error" = inr err).

Definition start : world := {| now := 0; log := [] |}.

Definition fetch_failed : exn := JsError "fetch failed" None.

Definition not_found : exn :=
  JsError "Not Found" (Some (404, VObj [("status", VNum (Number.of_Z 404))])).

Definition no_keypair : exn := JsError "invalid encoded string" None.

(** [Operation.payment] of an SDK that is only asked for payments of
    0.1 XLM. *)
Definition tenth_xlm (destination _ : string) : exn + PaymentOp :=
  inr {| destination := destination; asset := Native; amount := "0.1000000" |}.

(** Nothing answers: every request throws at once. *)
Definition offline : env :=
  {| net_fetch := fun _ _ _ => inl fetch_failed;
     net_loadAccount := fun _ _ _ => inl fetch_failed;
     net_submitTransaction := fun _ _ _ => inl fetch_failed;
     net_transaction := fun _ _ _ => inl fetch_failed;
     net_operations := fun _ _ _ => inl fetch_failed;
     latency := fun _ _ => 0%N;
     timer_lag := fun _ _ => 0%N;
     sdk_fromSecret := fun _ => inl no_keypair;
     sdk_payment := tenth_xlm;
     sdk_sign := fun kp _ => publicKey kp |}.

(** Horizon answers at once, and never knows the transaction. *)
Definition never_found : env :=
  {| net_fetch := fun _ _ _ => inl fetch_failed;
     net_loadAccount := fun _ _ _ => inl fetch_failed;
     net_submitTransaction := fun _ _ _ => inl fetch_failed;
     net_transaction := fun _ _ _ => inl not_found;
     net_operations := fun _ _ _ => inl not_found;
     latency := fun _ _ => 0%N;
     timer_lag := fun _ _ => 0%N;
     sdk_fromSecret := fun _ => inl no_keypair;
     sdk_payment := tenth_xlm;
     sdk_sign := fun kp _ => publicKey kp |}.

(** The facilitator answers 400 with a JSON body. *)
Definition rejecting (body : value) : env :=
  {| net_fetch := fun _ _ _ => inr {| status := 400; json := inr body |};
     net_loadAccount := fun _ _ _ => inl fetch_failed;
     net_submitTransaction := fun _ _ _ => inl fetch_failed;
     net_transaction := fun _ _ _ => inl not_found;
     net_operations := fun _ _ _ => inl not_found;
     latency := fun _ _ => 0%N;
     timer_lag := fun _ _ => 0%N;
     sdk_fromSecret := fun _ => inl no_keypair;
     sdk_payment := tenth_xlm;
     sdk_sign := fun kp _ => publicKey kp |}.

(** Horizon knows one successful transaction from [GSRC], a native payment
    of 0.1 XLM to [GDEST]. *)
Definition confirmed : env :=
  {| net_fetch := fun _ _ _ => inl fetch_failed;
     net_loadAccount := fun _ _ _ => inl fetch_failed;
     net_submitTransaction := fun _ _ _ => inl fetch_failed;
     net_transaction := fun _ _ _ =>
       inr {| successful := true; source_account := "GSRC" |};
     net_operations := fun _ _ _ =>
       inr [ {| op_type := "payment"; op_asset_type := Some "native";
                op_to := Some "GDEST"; op_amount := Some "0.1000000" |} ];
     latency := fun _ _ => 0%N;
     timer_lag := fun _ _ => 0%N;
     sdk_fromSecret := fun _ => inl no_keypair;
     sdk_payment := tenth_xlm;
     sdk_sign := fun kp _ => publicKey kp |}.

(** Horizon answers after 200 ms; it learns of the transaction, a successful
    one, at time [t]. *)
Definition found_from (t : Z) : env :=
  {| net_fetch := fun _ _ _ => inl fetch_failed;
     net_loadAccount := fun _ _ _ => inl fetch_failed;
     net_submitTransaction := fun _ _ _ => inl fetch_failed;
     net_transaction := fun w _ _ =>
       if now w <? t then inl not_found
       else inr {| successful := true; source_account := "GSRC" |};
     net_operations := fun _ _ _ => inl not_found;
     latency := fun _ _ => 200%N;
     timer_lag := fun _ _ => 0%N;
     sdk_fromSecret := fun _ => inl no_keypair;
     sdk_payment := tenth_xlm;
     sdk_sign := fun kp _ => publicKey kp |}.

(** A settlement result of the declared type [SettlePaymentResponse]. *)
Definition settled_example : value :=
  VObj [ ("settled", VBool true);
         ("transactionHash", VStr "ab12");
         ("amount", VStr "1000000");
         ("recipient", VStr "GDEST");
         ("network", VStr "stellar-testnet");
         ("timestamp", VStr "2025-01-01T00:00:00Z");
         ("status", VStr "confirmed") ].

End Scenarios.

Import Scenarios.

(** ** Further vocabulary and environments *)

Module More.

(** The names of the networks that the library documents, after
    normalisation, with ["public"], Stellar's own name for the main network. *)
Definition documented_names : list (string * network) :=
  [ ("mainnet", Mainnet); ("public", Mainnet); ("testnet", Testnet);
    ("futurenet", Futurenet); ("local", Standalone);
    ("standalone", Standalone) ].


(** The operations of a transaction are looked up only for a successful
    transaction, when some expectation is provided and the provided sender is
    its source account. *)
Definition needs_operations (reply : exn + TransactionRecord)
    (expectedSender expectedRecipient expectedAmount : option string) : bool :=
  match reply with
  | inl _ => false
  | inr tx =>
      successful tx
      && (provided expectedSender || provided expectedRecipient
          || provided expectedAmount)
      && negb (provided expectedSender
               && differs (Some (source_account tx))
                          (default_to "" expectedSender))
  end.

(** The round trip of [n] stroops gives back [n] or [n - 1]. *)
Definition loses_at_most_one (n : nat) : bool :=
  let s := JsString.of_Z (Z.of_nat n) in
  let r := xlmToStroops (stroopsToXlm s) in
  String.eqb r s || String.eqb r (JsString.of_Z (Z.of_nat n - 1)).

(** The round trip of [n] whole XLM, in stroops, is exact. *)
Definition whole_xlm_exact (n : nat) : bool :=
  let s := JsString.of_Z (Z.of_nat n * 10000000) in
  String.eqb (xlmToStroops (stroopsToXlm s)) s.

Definition source_key : Keypair :=
  {| publicKey := "GSRC"; secret := Some "SSRC" |}.

(** Horizon knows the account [GSRC], with 12.5 XLM and a trust line, and
    accepts every transaction. *)
Definition funded : env :=
  {| net_fetch := fun _ _ _ => inl fetch_failed;
     net_loadAccount := fun _ _ id =>
       inr {| account_id := id; sequence := 41;
              balances := [ {| asset_type := "credit_alphanum4"; balance := "3.0000000" |};
                            {| asset_type := "native"; balance := "12.5000000" |} ];
              data_attr := [] |};
     net_submitTransaction := fun _ _ _ => inr "ab12";
     net_transaction := fun _ _ _ => inl not_found;
     net_operations := fun _ _ _ => inl not_found;
     latency := fun _ _ => 150%N;
     timer_lag := fun _ _ => 0%N;
     sdk_fromSecret := fun _ => inr source_key;
     sdk_payment := tenth_xlm;
     sdk_sign := fun kp _ => publicKey kp |}.

(** Horizon knows one successful transaction from [GSRC] with two native
    payments: 1 XLM to [GOTHER], then 0.1 XLM to [GDEST]. *)
Definition two_payments : env :=
  {| net_fetch := fun _ _ _ => inl fetch_failed;
     net_loadAccount := fun _ _ _ => inl fetch_failed;
     net_submitTransaction := fun _ _ _ => inl fetch_failed;
     net_transaction := fun _ _ _ =>
       inr {| successful := true; source_account := "GSRC" |};
     net_operations := fun _ _ _ =>
       inr [ {| op_type := "create_account"; op_asset_type := None;
                op_to := None; op_amount := None |};
             {| op_type := "payment"; op_asset_type := Some "native";
                op_to := Some "GOTHER"; op_amount := Some "1.0000000" |};
             {| op_type := "payment"; op_asset_type := Some "native";
                op_to := Some "GDEST"; op_amount := Some "0.1000000" |} ];
     latency := fun _ _ => 0%N;
     timer_lag := fun _ _ => 0%N;
     sdk_fromSecret := fun _ => inl no_keypair;
     sdk_payment := tenth_xlm;
     sdk_sign := fun kp _ => publicKey kp |}.

(** The facilitator answers with the given status and body. *)
Definition answering (st : Z) (body : exn + value) : env :=
  {| net_fetch := fun _ _ _ => inr {| status := st; json := body |};
     net_loadAccount := fun _ _ _ => inl fetch_failed;
     net_submitTransaction := fun _ _ _ => inl fetch_failed;
     net_transaction := fun _ _ _ => inl not_found;
     net_operations := fun _ _ _ => inl not_found;
     latency := fun _ _ => 0%N;
     timer_lag := fun _ _ => 0%N;
     sdk_fromSecret := fun _ => inl no_keypair;
     sdk_payment := tenth_xlm;
     sdk_sign := fun kp _ => publicKey kp |}.

Definition not_json : exn := JsError "Unexpected token '<'" None.

(** The result of a call that threw. *)
Definition network_error (flag : string) (e : exn) : value :=
  VObj [ (flag, VBool false); ("error", VStr "Network error");
         ("message", VStr (message_of e)) ].

(** What [transaction.sign(keypair)] makes of [tx] when the key pair has a
    secret key. *)
Definition signed_by (E : env) (kp : Keypair) (tx : Transaction) : Transaction :=
  {| tx_source := tx_source tx;
     tx_sequence := tx_sequence tx;
     tx_fee := tx_fee tx;
     tx_networkPassphrase := tx_networkPassphrase tx;
     tx_operations := tx_operations tx;
     tx_memo := tx_memo tx;
     tx_timeout := tx_timeout tx;
     tx_signatures := (tx_signatures tx ++ [(publicKey kp, sdk_sign E kp tx)])%list |}.

(** A character that can start a number for [parseFloat]. *)
Definition starts_a_number (c : ascii) : bool :=
  match JsString.digit_val c with
  | Some _ => true
  | None => Ascii.eqb c "+" || Ascii.eqb c "-" || Ascii.eqb c "." || Ascii.eqb c "I"
  end.

(** A key pair made from the public key alone. *)
Definition public_key : Keypair := {| publicKey := "GSRC"; secret := None |}.

(** The result of posting [tx]: Horizon's answer, after the request. *)
Definition posted (E : env) (horizon : Server) (tx : Transaction) (w : world)
  : res string * world :=
  match net_submitTransaction E w horizon tx with
  | inr hash => (Ok hash, after_request E w (SubmitTransaction horizon tx))
  | inl e => (Throw e, after_request E w (SubmitTransaction horizon tx))
  end.

(** The error that [signAndSubmitPayment] makes of an error of
    [server.submitTransaction]. *)
Definition submission_error (e : exn) : exn :=
  if truthy (response_data e) then
    JsError ("Transaction failed: "
             ++ template (stringify (get_opt (get_opt (response_data e) "extras")
                                       "result_codes"))) None
  else e.

(** Horizon answers after 200 ms and never knows the transaction; timers
    fire 15 ms late. *)
Definition slow_never_found : env :=
  {| net_fetch := fun _ _ _ => inl fetch_failed;
     net_loadAccount := fun _ _ _ => inl fetch_failed;
     net_submitTransaction := fun _ _ _ => inl fetch_failed;
     net_transaction := fun _ _ _ => inl not_found;
     net_operations := fun _ _ _ => inl not_found;
     latency := fun _ _ => 200%N;
     timer_lag := fun _ _ => 15%N;
     sdk_fromSecret := fun _ => inl no_keypair;
     sdk_payment := tenth_xlm;
     sdk_sign := fun kp _ => publicKey kp |}.

End More.

Import More.

(** * Properties *)

(** ** Network tables *)

(** C7. For each of the three official network identifiers, the passphrase
    that [getNetworkPassphrase] returns is the one that [NETWORK_PASSPHRASES]
    records for it. *)
Theorem passphrase_tables_agree :
  Forall (fun id => passphrase_of id NETWORK_PASSPHRASES
                    = Some (getNetworkPassphrase (Some id)))
         [STELLAR_MAINNET; STELLAR_TESTNET; STELLAR_FUTURENET].
Proof.
  repeat constructor.
Qed.

Lemma toLowerCase_stellar_prefix (s : string) :
  JsString.toLowerCase ("stellar-" ++ s) = "stellar-" ++ JsString.toLowerCase s.
Proof. reflexivity. Qed.

Lemma replace_unfold (pat rep s : string) :
  JsString.replace pat rep s =
  match JsString.strip_prefix pat s with
  | Some r => rep ++ r
  | None => match s with
            | EmptyString => EmptyString
            | String c r => String c (JsString.replace pat rep r)
            end
  end.
Proof. destruct s; reflexivity. Qed.

Lemma strip_prefix_app (pat s : string) :
  JsString.strip_prefix pat (pat ++ s) = Some s.
Proof.
  induction pat as [|c pat IH]; simpl; [reflexivity|].
  now rewrite Ascii.eqb_refl.
Qed.

Lemma replace_at_prefix (pat rep s : string) :
  JsString.replace pat rep (pat ++ s) = rep ++ s.
Proof. now rewrite replace_unfold, strip_prefix_app. Qed.

(** C8. Both functions compute the same normalised name (lower case, a
    ["stellar-"] prefix stripped, ["public"] rewritten to ["mainnet"]), and
    for every input, unknown names included, the Horizon server and the
    passphrase they choose belong to the same network: the one the
    normalised name stands for, the test network when it is unknown. *)
Theorem horizon_and_passphrase_same_network (network : option string) :
  network_of_server (getHorizonClient network)
    = Some (network_of_name (normalized network))
  /\ network_of_passphrase (getNetworkPassphrase network)
    = Some (network_of_name (normalized network))
  /\ (forall s, normalized (Some ("stellar-" ++ s))
                = JsString.replace "public" "mainnet" (JsString.toLowerCase s))
  /\ (~ In (normalized network)
           ["mainnet"; "testnet"; "futurenet"; "local"; "standalone"] ->
      network_of_name (normalized network) = Testnet).
Proof.
  unfold getHorizonClient, getNetworkPassphrase, network_of_name, normalized.
  set (n := JsString.replace "public" "mainnet" _).
  split; [|split; [|split]].
  - destruct (String.eqb n "mainnet"); [reflexivity|].
    destruct (String.eqb n "testnet"); [reflexivity|].
    destruct (String.eqb n "futurenet"); [reflexivity|].
    destruct (String.eqb n "local" || String.eqb n "standalone"); reflexivity.
  - destruct (String.eqb n "mainnet"); [reflexivity|].
    destruct (String.eqb n "testnet"); [reflexivity|].
    destruct (String.eqb n "futurenet"); [reflexivity|].
    destruct (String.eqb n "local" || String.eqb n "standalone"); reflexivity.
  - intros s. unfold default_to.
    rewrite toLowerCase_stellar_prefix.
    now rewrite (replace_at_prefix "stellar-" "").
  - intros Hn.
    destruct (String.eqb_spec n "mainnet") as [->|_]; [exfalso; apply Hn; simpl; auto|].
    destruct (String.eqb_spec n "testnet") as [->|_]; [reflexivity|].
    destruct (String.eqb_spec n "futurenet") as [->|_]; [exfalso; apply Hn; simpl; auto|].
    destruct (String.eqb_spec n "local") as [->|_]; [exfalso; apply Hn; simpl; auto|].
    destruct (String.eqb_spec n "standalone") as [->|_]; [exfalso; apply Hn; simpl; auto 6|].
    reflexivity.
Qed.

(** C8 at the unknown name ["devnet"] and at ["Stellar-Public"]. *)
Lemma horizon_and_passphrase_same_network_witness :
  network_of_server (getHorizonClient (Some "devnet")) = Some Testnet
  /\ network_of_passphrase (getNetworkPassphrase (Some "devnet")) = Some Testnet
  /\ network_of_server (getHorizonClient (Some "Stellar-Public")) = Some Mainnet
  /\ network_of_passphrase (getNetworkPassphrase (Some "Stellar-Public"))
     = Some Mainnet.
Proof.
  destruct (horizon_and_passphrase_same_network (Some "devnet"))
    as [Hs [Hp [_ Hu]]].
  destruct (horizon_and_passphrase_same_network (Some "Stellar-Public"))
    as [Hs' [Hp' _]].
  rewrite Hs, Hp, Hs', Hp'.
  rewrite Hu.
  - repeat split.
  - vm_compute. intuition discriminate.
Defined.

(** ** Unit conversion *)

(** The number model on known values of [Number.prototype.toString],
    [parseFloat], [parseInt] and [Math.floor]. *)
Example toString_known_values :
  map (fun d => Number.toString (Number.of_decimal (fst d) (snd d)))
      [ (1, 0); (1, 21); (1, 22); (123456789, -5); (5, -324); (1, -6); (1, -7);
        (123, -9); (15, -1); (9007199254740993, 0); (1, -1) ]
  = [ "1"; "1e+21"; "1e+22"; "1234.56789"; "5e-324"; "0.000001"; "1e-7";
      "1.23e-7"; "1.5"; "9007199254740992"; "0.1" ]
  /\ Number.toString (PrimFloat.add (Number.of_decimal 1 (-1))
                                   (Number.of_decimal 2 (-1)))
     = "0.30000000000000004"
  /\ Number.toString (PrimFloat.div (Number.of_Z (-2)) (Number.of_Z 3))
     = "-0.6666666666666666".
Proof. repeat split; vm_compute; reflexivity. Qed.

Example parse_known_values :
  map (fun t => Number.toString (Number.parseFloat t))
      [ "1.5e3x"; "  -12.25abc"; ".5"; "5."; "."; "1e"; "1e-2"; "-Infinity";
        "abc"; "0x10"; "1e400" ]
  = [ "1500"; "-12.25"; "0.5"; "5"; "NaN"; "1"; "0.01"; "-Infinity";
      "NaN"; "0"; "Infinity" ]
  /\ map (fun t => Number.toString (Number.parseInt t))
         [ "12px"; " 0x1F"; "-42"; "abc"; "007"; "3.9" ]
     = [ "12"; "31"; "-42"; "NaN"; "7"; "3" ]
  /\ map (fun t => Number.toString (Number.floor (Number.parseFloat t)))
         [ "-0.5"; "0.5"; "-3.2"; "3.999"; "7.0" ]
     = [ "-1"; "0"; "-4"; "3"; "7" ].
Proof. repeat split; vm_compute; reflexivity. Qed.

(** The examples in the documentation of the two conversions. *)
Example conversions_documented_examples :
  xlmToStroops "0.1" = "1000000" /\ stroopsToXlm "1000000" = "0.1".
Proof. split; vm_compute; reflexivity. Qed.

(** C10 (the code at the failing input). Converting 21 stroops to XLM gives
    ["0.0000021"]; converting that back gives 20 stroops, because the
    product [0.0000021 * 10000000] is [20.999999999999996] in binary64 and
    [Math.floor] truncates it. *)
Theorem stroops_round_trip_loses_a_stroop :
  stroopsToXlm "21" = "0.0000021"
  /\ Number.toString (PrimFloat.mul (Number.parseFloat "0.0000021") Number.TEN_MILLION)
     = "20.999999999999996"
  /\ xlmToStroops (stroopsToXlm "21") = "20".
Proof.
  repeat split; vm_compute; reflexivity.
Qed.

(** ** The facilitator client *)

Ltac run_client :=
  unfold try_catch, bind, fetch_post, call, lift, ret, throw; simpl.

Lemma or_else_truthy (x : value) (d : string) :
  d <> "" -> truthy (or_else x (VStr d)) = true.
Proof.
  intros Hd. unfold or_else. destruct (truthy x) eqn:Hx; [assumption|].
  destruct d; [contradiction|reflexivity].
Qed.

Lemma or_else_cases (x y : value) :
  (truthy x = true /\ or_else x y = x) \/ or_else x y = y.
Proof. unfold or_else. destruct (truthy x); auto. Qed.

(** What one facilitator call does: the shape shared by [verifyPayment] and
    [settlePayment], which differ in the request body, the name of the flag
    and the fallback error. *)
Lemma post_and_map_run (flag fallback url : string) (body : option string) E w :
  fallback <> "" ->
  let reply := net_fetch E w url body in
  exists v,
    try_catch
      (response <- fetch_post url body ;;
       data <- lift (json response) ;;
       if negb (ok response) then
         error <- lift (get data "error") ;;
         message <- lift (get data "message") ;;
         ret (VObj [ (flag, VBool false);
                     ("error", or_else error (VStr fallback));
                     ("message", or_else message
                                   (VStr ("HTTP " ++ JsString.of_Z (status response)))) ])
       else ret data)
      (fun error =>
         ret (VObj [ (flag, VBool false);
                     ("error", VStr "Network error");
                     ("message", VStr (message_of error)) ])) E w
    = (Ok v, {| now := now w + Z.of_N (latency E w (Fetch url "POST" json_headers body));
                log := Net (Fetch url "POST" json_headers body) :: log w |})
    /\ (call_failed reply -> failure_result flag fallback reply v)
    /\ (forall e, reply = inl e ->
        v = VObj [ (flag, VBool false); ("error", VStr "Network error");
                   ("message", VStr (message_of e)) ]).
Proof.
  intros Hfb reply. subst reply. run_client.
  destruct (net_fetch E w url body) as [e|r] eqn:Hreply.
  - eexists; split; [reflexivity|]. split.
    + intros _. do 2 eexists. split; [reflexivity|]. split; [reflexivity|]. now left.
    + intros e' [= <-]. reflexivity.
  - destruct (json r) as [e|data] eqn:Hjson; simpl.
    + eexists; split; [reflexivity|]. split; [|discriminate].
      intros _. do 2 eexists. split; [reflexivity|]. split; [reflexivity|]. now left.
    + destruct (ok r) eqn:Hok; simpl.
      * eexists; split; [reflexivity|]. split; [|discriminate].
        simpl. intros H; congruence.
      * destruct data; simpl;
          (eexists; split; [reflexivity|]; split; [|discriminate]; intros _;
           do 2 eexists; split; [reflexivity|]; split;
           [ first [reflexivity | now apply or_else_truthy] | ]).
        1-2: now left.
        1-4: right; left; reflexivity.
        destruct (or_else_cases (lookup "error" fields) (VStr fallback)) as [[_ ->]| ->].
        -- right. right. exists r, (VObj fields). repeat split; assumption.
        -- right. left. reflexivity.
Qed.

Lemma verifyPayment_run url tx rcpt amt net E w :
  let body := stringify (VObj [ ("signedTransaction", VStr tx);
                                ("expectedRecipient", VStr rcpt);
                                ("expectedAmount", VStr amt);
                                ("expectedNetwork",
                                 VStr (default_to "stellar-testnet" net)) ]) in
  let reply := net_fetch E w url body in
  exists v,
    verifyPayment url tx rcpt amt net E w
    = (Ok v, {| now := now w + Z.of_N (latency E w (Fetch url "POST" json_headers body));
                log := Net (Fetch url "POST" json_headers body) :: log w |})
    /\ (call_failed reply -> failure_result "valid" "Verification failed" reply v)
    /\ (forall e, reply = inl e ->
        v = VObj [ ("valid", VBool false); ("error", VStr "Network error");
                   ("message", VStr (message_of e)) ]).
Proof.
  intros body reply.
  exact (post_and_map_run "valid" "Verification failed" url body E w
           ltac:(discriminate)).
Qed.

Lemma settlePayment_run url tx net E w :
  let body := stringify (VObj [ ("signedTransaction", VStr tx);
                                ("expectedNetwork",
                                 VStr (default_to "stellar-testnet" net)) ]) in
  let reply := net_fetch E w url body in
  exists v,
    settlePayment url tx net E w
    = (Ok v, {| now := now w + Z.of_N (latency E w (Fetch url "POST" json_headers body));
                log := Net (Fetch url "POST" json_headers body) :: log w |})
    /\ (call_failed reply -> failure_result "settled" "Settlement failed" reply v)
    /\ (forall e, reply = inl e ->
        v = VObj [ ("settled", VBool false); ("error", VStr "Network error");
                   ("message", VStr (message_of e)) ]).
Proof.
  intros body reply.
  exact (post_and_map_run "settled" "Settlement failed" url body E w
           ltac:(discriminate)).
Qed.

(** *** Request bodies *)

Lemma occursb_unfold (sub s : string) :
  occursb sub s =
  match JsString.strip_prefix sub s with
  | Some _ => true
  | None => match s with
            | EmptyString => false
            | String _ r => occursb sub r
            end
  end.
Proof. destruct s; reflexivity. Qed.

Lemma append_assoc (a b c : string) : (a ++ b) ++ c = a ++ (b ++ c).
Proof. induction a as [|x a IH]; simpl; [reflexivity|now rewrite IH]. Qed.

Lemma occurs_occursb (sub s : string) : occurs sub s -> occursb sub s = true.
Proof.
  intros [p [q ->]]. induction p as [|c p IH].
  - simpl. rewrite occursb_unfold, strip_prefix_app. reflexivity.
  - rewrite occursb_unfold.
    destruct (JsString.strip_prefix sub (String c p ++ sub ++ q)); [reflexivity|].
    simpl. exact IH.
Qed.

Lemma occurs_append_l (sub a b : string) : occurs sub a -> occurs sub (a ++ b).
Proof.
  intros [p [q ->]]. exists p, (q ++ b).
  now rewrite !append_assoc.
Qed.

Lemma occurs_append_r (sub a b : string) : occurs sub b -> occurs sub (a ++ b).
Proof.
  intros [p [q ->]]. exists (a ++ p), q.
  now rewrite !append_assoc.
Qed.

Lemma occurs_join_cons (sub sep x : string) (l : list string) :
  occurs sub x \/ (l <> [] /\ occurs sub (join sep l)) ->
  occurs sub (join sep (x :: l)).
Proof.
  intros [H|[Hl H]]; destruct l as [|y l]; simpl.
  - exact H.
  - now apply occurs_append_l.
  - contradiction.
  - now apply occurs_append_r, occurs_append_r.
Qed.

Lemma occurs_head (a b t : string) : occurs (a ++ b) (a ++ b ++ t).
Proof. exists "", t. now rewrite append_assoc. Qed.

Lemma members_with_cons (text : value -> option string) k v r :
  members_with text ((k, v) :: r) =
  match text v with
  | Some t => (quote k ++ ":" ++ t) :: members_with text r
  | None => members_with text r
  end.
Proof. reflexivity. Qed.

(** A property that has a JSON text shows in the text of the object. *)
Lemma member_occurs (k t : string) (fs : list (string * value)) :
  stringify (lookup k fs) = Some t ->
  members_with stringify fs <> []
  /\ occurs (quote k ++ ":") (join "," (members_with stringify fs)).
Proof.
  induction fs as [|[k' v] r IH]; [discriminate|].
  rewrite members_with_cons. cbn [lookup].
  destruct (String.eqb_spec k k') as [<-|Hk].
  - intros ->. split; [discriminate|].
    apply occurs_join_cons. left. apply occurs_head.
  - intros H. specialize (IH H). destruct (stringify v); [|exact IH].
    split; [discriminate|]. apply occurs_join_cons. right. exact IH.
Qed.

Lemma versioned_request_text (v : value) :
  field is_number "x402Version" v = true ->
  exists t, stringify v = Some t /\ occurs (quote "x402Version" ++ ":") t.
Proof.
  destruct v as [| | | | | |fs]; try discriminate. intros H.
  unfold field in H.
  destruct (lookup "x402Version" fs) as [| | |x| | |] eqn:Hx; try discriminate.
  destruct (member_occurs "x402Version"
              (if PrimFloat.is_finite x then Number.toString x else "null") fs)
    as [_ Hocc].
  { now rewrite Hx. }
  eexists. split; [reflexivity|].
  apply occurs_append_r with (a := "{"), occurs_append_l. exact Hocc.
Qed.

(** C1 (counterexample). The body that [verifyPayment] posts for a payment of
    1000000 stroops is the JSON text of an object with the four fields
    [signedTransaction], [expectedRecipient], [expectedAmount] and
    [expectedNetwork]; the object is no [VerifyRequest], and no
    [VerifyRequest] has that JSON text. *)
Lemma verify_body_is_no_VerifyRequest :
  let sent := VObj [ ("signedTransaction", VStr "AAAAAgAAAAA=");
                     ("expectedRecipient", VStr "GDEST");
                     ("expectedAmount", VStr "1000000");
                     ("expectedNetwork", VStr "stellar-testnet") ] in
  log (snd (verifyPayment "https://facilitator.example/verify" "AAAAAgAAAAA="
              "GDEST" "1000000" None offline start))
  = [ Net (Fetch "https://facilitator.example/verify" "POST" json_headers
             (stringify sent)) ]
  /\ VerifyRequest sent = false
  /\ forall v, VerifyRequest v = true -> stringify v <> stringify sent.
Proof.
  intros sent. split; [reflexivity|]. split; [reflexivity|].
  intros v Hv Heq. unfold VerifyRequest in Hv.
  apply andb_prop in Hv as [Hv _]. apply andb_prop in Hv as [Hv _].
  destruct (versioned_request_text v Hv) as [t [Ht Hocc]].
  rewrite Ht in Heq. apply occurs_occursb in Hocc.
  injection Heq as ->. vm_compute in Hocc. discriminate.
Qed.

(** C1 (amended). For every call, the body posted by [verifyPayment] is the
    JSON text of a legacy [VerifyPaymentRequest] (the four string fields
    [signedTransaction], [expectedRecipient], [expectedAmount],
    [expectedNetwork]) and the body posted by [settlePayment] is the JSON text
    of an object with the two string fields [signedTransaction] and
    [expectedNetwork]; neither object is a [VerifyRequest] or a
    [SettleRequest]. *)
Theorem request_bodies_are_legacy_objects url tx rcpt amt net E w :
  let network := default_to "stellar-testnet" net in
  let verify_body := VObj [ ("signedTransaction", VStr tx);
                            ("expectedRecipient", VStr rcpt);
                            ("expectedAmount", VStr amt);
                            ("expectedNetwork", VStr network) ] in
  let settle_body := VObj [ ("signedTransaction", VStr tx);
                            ("expectedNetwork", VStr network) ] in
  log (snd (verifyPayment url tx rcpt amt net E w))
  = Net (Fetch url "POST" json_headers (stringify verify_body)) :: log w
  /\ VerifyPaymentRequest verify_body = true
  /\ VerifyRequest verify_body = false
  /\ log (snd (settlePayment url tx net E w))
     = Net (Fetch url "POST" json_headers (stringify settle_body)) :: log w
  /\ SettleRequest settle_body = false.
Proof.
  intros network verify_body settle_body.
  destruct (verifyPayment_run url tx rcpt amt net E w) as [v [Hv _]].
  destruct (settlePayment_run url tx net E w) as [s [Hs _]].
  rewrite Hv, Hs. repeat split.
Qed.

(** *** Failures *)

(** C2 (counterexample). When the facilitator cannot be reached, the results
    of [verifyPayment] and [settlePayment] carry the flags [valid] and
    [settled]; their [isValid] and [success] are [undefined], not [false],
    and they are no [VerifyResponse] and no [SettleResponse].  And when the
    facilitator answers 400 with the body [{"error": 42}], the [error] of the
    result is the number 42, not a string. *)
Lemma failure_results_lack_isValid_and_success :
  (exists v s,
     fst (verifyPayment "https://facilitator.example/verify" "AAAAAgAAAAA="
            "GDEST" "1000000" None offline start) = Ok v
     /\ fst (settlePayment "https://facilitator.example/settle" "AAAAAgAAAAA="
               None offline start) = Ok s
     /\ get v "isValid" = inr VUndefined /\ get v "isValid" <> inr (VBool false)
     /\ get s "success" = inr VUndefined /\ get s "success" <> inr (VBool false)
     /\ VerifyResponse v = false /\ SettleResponse s = false)
  /\ (exists v,
        fst (verifyPayment "https://facilitator.example/verify" "AAAAAgAAAAA="
               "GDEST" "1000000" None
               (rejecting (VObj [("error", VNum (Number.of_Z 42))])) start) = Ok v
        /\ get v "error" = inr (VNum (Number.of_Z 42))
        /\ is_string (VNum (Number.of_Z 42)) = false).
Proof.
  split.
  - do 2 eexists. repeat split; try reflexivity; discriminate.
  - eexists. repeat split.
Qed.

(** C2 (amended). [verifyPayment] and [settlePayment] never throw.  For every
    failure of the facilitator call, a thrown network error or a response
    that is not ok, they return an object whose flag is [false] ([valid] for
    verification, [settled] for settlement) together with a truthy [error]
    (["Network error"], the facilitator's own [error], or the fallback
    ["Verification failed"] / ["Settlement failed"]) and a [message]; for a
    thrown error the result is the legacy response with the error
    ["Network error"] and the message of the exception. *)
Theorem facilitator_failures_map_to_false_flag url tx rcpt amt net E w :
  let network := default_to "stellar-testnet" net in
  let verify_reply :=
    net_fetch E w url
      (stringify (VObj [ ("signedTransaction", VStr tx);
                         ("expectedRecipient", VStr rcpt);
                         ("expectedAmount", VStr amt);
                         ("expectedNetwork", VStr network) ])) in
  let settle_reply :=
    net_fetch E w url
      (stringify (VObj [ ("signedTransaction", VStr tx);
                         ("expectedNetwork", VStr network) ])) in
  (exists v, fst (verifyPayment url tx rcpt amt net E w) = Ok v
             /\ (call_failed verify_reply ->
                 failure_result "valid" "Verification failed" verify_reply v)
             /\ (forall e, verify_reply = inl e ->
                 v = VObj [ ("valid", VBool false);
                            ("error", VStr "Network error");
                            ("message", VStr (message_of e)) ]
                 /\ VerifyPaymentResponse v = true))
  /\ (exists s, fst (settlePayment url tx net E w) = Ok s
                /\ (call_failed settle_reply ->
                    failure_result "settled" "Settlement failed" settle_reply s)
                /\ (forall e, settle_reply = inl e ->
                    s = VObj [ ("settled", VBool false);
                               ("error", VStr "Network error");
                               ("message", VStr (message_of e)) ]
                    /\ SettlePaymentResponse s = true)).
Proof.
  intros network verify_reply settle_reply.
  destruct (verifyPayment_run url tx rcpt amt net E w) as [v [Hv [Hf He]]].
  destruct (settlePayment_run url tx net E w) as [s [Hs [Hg Hd]]].
  rewrite Hv, Hs. split; eexists; (split; [reflexivity|]); (split; [assumption|]).
  - intros e Hreply. rewrite (He e Hreply). split; reflexivity.
  - intros e Hreply. rewrite (Hd e Hreply). split; reflexivity.
Qed.

(** The amended C2 at a facilitator that answers 400 with its own error, and
    at a facilitator that cannot be reached. *)
Lemma facilitator_failures_map_to_false_flag_witness :
  (exists v,
     fst (verifyPayment "https://facilitator.example/verify" "AAAAAgAAAAA="
            "GDEST" "1000000" None
            (rejecting (VObj [("error", VStr "bad signature")])) start) = Ok v
     /\ failure_result "valid" "Verification failed"
          (inr {| status := 400;
                  json := inr (VObj [("error", VStr "bad signature")]) |}) v)
  /\ fst (settlePayment "https://facilitator.example/settle" "AAAAAgAAAAA="
            None offline start)
     = Ok (VObj [ ("settled", VBool false); ("error", VStr "Network error");
                  ("message", VStr "fetch failed") ]).
Proof.
  split.
  - destruct (facilitator_failures_map_to_false_flag
                "https://facilitator.example/verify" "AAAAAgAAAAA=" "GDEST"
                "1000000" None
                (rejecting (VObj [("error", VStr "bad signature")])) start)
      as [[v [Hv [Hf _]]] _].
    exists v. split; [exact Hv|]. apply Hf. reflexivity.
  - destruct (facilitator_failures_map_to_false_flag
                "https://facilitator.example/settle" "AAAAAgAAAAA=" "GDEST"
                "1000000" None offline start)
      as [_ [s [Hs [_ He]]]].
    rewrite Hs. f_equal. apply (He fetch_failed). reflexivity.
Defined.

(** *** The payment response *)

(** C3 (counterexample). For a settlement result of the declared type
    [SettlePaymentResponse], the object that [createPaymentResponse] returns
    has no [settlement] field and is no [PaymentResponseHeader]. *)
Lemma payment_response_is_no_PaymentResponseHeader :
  SettlePaymentResponse settled_example = true
  /\ exists v,
       fst (createPaymentResponse settled_example offline start) = Ok v
       /\ get v "settlement" = inr VUndefined
       /\ PaymentResponseHeader v = false.
Proof.
  split; [reflexivity|]. eexists. repeat split.
Qed.

(** C3 (amended). For every settlement result that is an object,
    [createPaymentResponse] returns, without any request, a record with the
    seven fields [transactionHash], [amount], [currency], [recipient],
    [network], [timestamp] and [status]: [currency] is ["XLM"] and the others
    are copied from the settlement result.  It has no [settlement] field and
    is never a [PaymentResponseHeader]. *)
Theorem payment_response_has_seven_legacy_fields fields E w :
  let v := VObj [ ("transactionHash", lookup "transactionHash" fields);
                  ("amount", lookup "amount" fields);
                  ("currency", VStr "XLM");
                  ("recipient", lookup "recipient" fields);
                  ("network", lookup "network" fields);
                  ("timestamp", lookup "timestamp" fields);
                  ("status", lookup "status" fields) ] in
  createPaymentResponse (VObj fields) E w = (Ok v, w)
  /\ get v "settlement" = inr VUndefined
  /\ PaymentResponseHeader v = false.
Proof.
  repeat split.
Qed.

(** *** The convenience wrappers *)

Lemma verifyPaymentSimple_empty tx rcpt amt net E w :
  verifyPaymentSimple "" tx rcpt amt net E w = (Throw url_required, w).
Proof. reflexivity. Qed.

Lemma settlePaymentSimple_empty tx net E w :
  settlePaymentSimple "" tx net E w = (Throw url_required, w).
Proof. reflexivity. Qed.

Lemma verifyPaymentSimple_nonempty c url tx rcpt amt net E w :
  verifyPaymentSimple (String c url) tx rcpt amt net E w
  = verifyPayment (String c url ++ "/verify") tx rcpt amt net E w.
Proof. reflexivity. Qed.

Lemma settlePaymentSimple_nonempty c url tx net E w :
  settlePaymentSimple (String c url) tx net E w
  = settlePayment (String c url ++ "/settle") tx net E w.
Proof. reflexivity. Qed.

Lemma verifyPayment_returns url tx rcpt amt net E w :
  exists v, fst (verifyPayment url tx rcpt amt net E w) = Ok v.
Proof.
  destruct (verifyPayment_run url tx rcpt amt net E w) as [v [Hv _]].
  rewrite Hv. now exists v.
Qed.

Lemma settlePayment_returns url tx net E w :
  exists v, fst (settlePayment url tx net E w) = Ok v.
Proof.
  destruct (settlePayment_run url tx net E w) as [v [Hv _]].
  rewrite Hv. now exists v.
Qed.

Lemma createPaymentResponse_returns settlementResult E w :
  settlementResult <> VNull -> settlementResult <> VUndefined ->
  exists v, fst (createPaymentResponse settlementResult E w) = Ok v.
Proof.
  destruct settlementResult; intros Hn Hu; try contradiction;
    eexists; reflexivity.
Qed.

Lemma createPaymentResponse_throws settlementResult E w :
  (exists e, fst (createPaymentResponse settlementResult E w) = Throw e)
  <-> settlementResult = VNull \/ settlementResult = VUndefined.
Proof.
  split.
  - intros [e He]. destruct settlementResult; try discriminate; auto.
  - intros [->| ->]; eexists; reflexivity.
Qed.

(** C9 (counterexample). [createPaymentResponse] is an entry point of the
    facilitator client that throws: on [null], which is what [settlePayment]
    returns when the facilitator answers 200 with the body [null]. *)
Lemma createPaymentResponse_throws_on_null :
  let facilitator := answering 200 (inr VNull) in
  let settlement := settlePayment "https://facilitator.example/settle"
                      "AAAAAgAAAAA=" None facilitator start in
  fst settlement = Ok VNull
  /\ fst (createPaymentResponse VNull facilitator (snd settlement))
     = Throw (JsError "Cannot read properties of null (reading 'transactionHash')"
                None).
Proof. split; vm_compute; reflexivity. Qed.

(** C9 (amended). [verifyPaymentSimple] and [settlePaymentSimple] throw
    exactly when the facilitator base URL is empty; for a non-empty base URL
    they are [verifyPayment] and [settlePayment] at the base URL followed by
    ["/verify"] and ["/settle"].  [verifyPayment] and [settlePayment] never
    throw: they always return.  [createPaymentResponse] throws exactly when
    its argument is [null] or [undefined], and returns otherwise; so the
    entry points of the facilitator client that can throw are the two
    [Simple] wrappers and [createPaymentResponse]. *)
Theorem facilitator_client_entry_points_that_throw
    url tx rcpt amt net settlementResult E w :
  ((exists e, fst (verifyPaymentSimple url tx rcpt amt net E w) = Throw e)
   <-> url = "")
  /\ ((exists e, fst (settlePaymentSimple url tx net E w) = Throw e)
      <-> url = "")
  /\ (url <> "" ->
      verifyPaymentSimple url tx rcpt amt net E w
      = verifyPayment (url ++ "/verify") tx rcpt amt net E w
      /\ settlePaymentSimple url tx net E w
         = settlePayment (url ++ "/settle") tx net E w)
  /\ (exists v, fst (verifyPayment url tx rcpt amt net E w) = Ok v)
  /\ (exists v, fst (settlePayment url tx net E w) = Ok v)
  /\ ((exists e, fst (createPaymentResponse settlementResult E w) = Throw e)
      <-> settlementResult = VNull \/ settlementResult = VUndefined)
  /\ ((exists v, fst (createPaymentResponse settlementResult E w) = Ok v)
      <-> settlementResult <> VNull /\ settlementResult <> VUndefined).
Proof.
  pose proof (verifyPayment_returns url tx rcpt amt net E w) as Hv.
  pose proof (settlePayment_returns url tx net E w) as Hs.
  assert (Hc : (exists v, fst (createPaymentResponse settlementResult E w) = Ok v)
               <-> settlementResult <> VNull /\ settlementResult <> VUndefined).
  { split.
    - intros [v Hv']. split; intros ->; discriminate.
    - intros [Hn Hu]. apply createPaymentResponse_returns; assumption. }
  pose proof (createPaymentResponse_throws settlementResult E w) as Ht.
  destruct url as [|c url].
  - rewrite verifyPaymentSimple_empty, settlePaymentSimple_empty.
    split; [split; [reflexivity|intros _; eexists; reflexivity]|].
    split; [split; [reflexivity|intros _; eexists; reflexivity]|].
    split; [intros H; contradiction|].
    split; [exact Hv|]. split; [exact Hs|]. split; [exact Ht|exact Hc].
  - rewrite verifyPaymentSimple_nonempty, settlePaymentSimple_nonempty.
    destruct (verifyPayment_returns (String c url ++ "/verify") tx rcpt amt net E w)
      as [v1 Hv1].
    destruct (settlePayment_returns (String c url ++ "/settle") tx net E w)
      as [s1 Hs1].
    rewrite Hv1, Hs1.
    split; [split; [intros [e He]; discriminate|discriminate]|].
    split; [split; [intros [e He]; discriminate|discriminate]|].
    split; [intros _; split; reflexivity|].
    split; [exact Hv|]. split; [exact Hs|]. split; [exact Ht|exact Hc].
Qed.

(** C9 (amended) at the base URL [https://facilitator.example]. *)
Lemma facilitator_client_entry_points_that_throw_witness :
  verifyPaymentSimple "https://facilitator.example" "AAAAAgAAAAA=" "GDEST"
    "1000000" None offline start
  = verifyPayment "https://facilitator.example/verify" "AAAAAgAAAAA=" "GDEST"
      "1000000" None offline start
  /\ (exists v, fst (createPaymentResponse settled_example offline start) = Ok v)
  /\ exists e, fst (createPaymentResponse VUndefined offline start) = Throw e.
Proof.
  destruct (facilitator_client_entry_points_that_throw
              "https://facilitator.example" "AAAAAgAAAAA=" "GDEST" "1000000"
              None settled_example offline start) as [_ [_ [H [_ [_ [_ Hc]]]]]].
  destruct (facilitator_client_entry_points_that_throw
              "https://facilitator.example" "AAAAAgAAAAA=" "GDEST" "1000000"
              None VUndefined offline start) as [_ [_ [_ [_ [_ [Ht _]]]]]].
  split; [|split].
  - apply H. discriminate.
  - apply Hc. split; discriminate.
  - apply Ht. right. reflexivity.
Defined.

(** ** Stellar utilities *)

Lemma getHorizonClient_default (network : option string) :
  getHorizonClient (Some (default_to "stellar-testnet" network))
  = getHorizonClient network.
Proof. reflexivity. Qed.

Lemma differs_false (actual : option string) (expected : string) :
  differs actual expected = false <-> actual = Some expected.
Proof.
  unfold differs. destruct actual as [s|].
  - destruct (String.eqb_spec s expected) as [->|Hne]; simpl.
    + split; reflexivity.
    + split; [discriminate|]. intros [= ->]. contradiction.
  - split; discriminate.
Qed.

(** The test of one expectation in [verifyTransaction]. *)
Lemma mismatch_false (expected actual : option string) :
  provided expected && differs actual (default_to "" expected) = false
  <-> matches expected actual.
Proof.
  unfold matches. destruct expected as [s|]; simpl.
  - destruct (JsString.truthy s); simpl.
    + rewrite differs_false. split; auto.
    + split; [discriminate|reflexivity].
  - split; [discriminate|reflexivity].
Qed.

Lemma mismatch_true (expected actual : option string) :
  provided expected && differs actual (default_to "" expected) = true ->
  ~ matches expected actual.
Proof.
  intros H Hm. apply mismatch_false in Hm. congruence.
Qed.

Lemma verifyTransaction_run
    hash network expectedSender expectedRecipient expectedAmount E w :
  exists b,
    fst (verifyTransaction hash network expectedSender expectedRecipient
           expectedAmount E w) = Ok b
    /\ (b = true <-> verified E w hash network expectedSender
                       expectedRecipient expectedAmount).
Proof.
  unfold verifyTransaction, verified, try_catch, bind, call, ret.
  rewrite getHorizonClient_default.
  set (horizon := getHorizonClient network). clearbody horizon.
  destruct (net_transaction E w horizon hash) as [e|tx] eqn:Htx.
  { exists false. split; [reflexivity|].
    split; [discriminate|]. intros [tx [H _]]. discriminate. }
  destruct (successful tx) eqn:Hok; cbn [negb].
  2:{ exists false. split; [reflexivity|].
      split; [discriminate|]. intros [tx' [H [Hs _]]]. congruence. }
  destruct (negb (provided expectedSender) && negb (provided expectedRecipient)
            && negb (provided expectedAmount)) eqn:Hnone.
  { exists true. split; [reflexivity|]. split; [|reflexivity]. intros _.
    exists tx. split; [reflexivity|]. split; [assumption|]. left.
    apply andb_prop in Hnone as [Hnone Ha]. apply andb_prop in Hnone as [Hs Hr].
    apply negb_true_iff in Hs, Hr, Ha. auto. }
  assert (Hsome : ~ (provided expectedSender = false
                     /\ provided expectedRecipient = false
                     /\ provided expectedAmount = false)).
  { intros [Hs [Hr Ha]]. rewrite Hs, Hr, Ha in Hnone. discriminate. }
  destruct (provided expectedSender
            && differs (Some (source_account tx)) (default_to "" expectedSender))
    eqn:Hsender.
  { exists false. split; [reflexivity|]. split; [discriminate|].
    intros [tx' [H [_ [Hno|[Hm _]]]]]; [contradiction|].
    injection H as <-. now apply mismatch_true in Hsender. }
  apply mismatch_false in Hsender.
  destruct (net_operations E (after_request E w (GetTransaction horizon hash))
              horizon hash) as [e|ops] eqn:Hops.
  { exists false. split; [reflexivity|]. split; [discriminate|].
    intros [tx' [_ [_ [Hno|[_ [ops [p [H _]]]]]]]]; [contradiction|discriminate]. }
  destruct (find is_native_payment ops) as [payment|] eqn:Hfind.
  2:{ exists false. split; [reflexivity|]. split; [discriminate|].
      intros [tx' [_ [_ [Hno|[_ [ops' [p [H [Hf _]]]]]]]]]; [contradiction|].
      congruence. }
  destruct (provided expectedRecipient
            && differs (op_to payment) (default_to "" expectedRecipient))
    eqn:Hrecipient.
  { exists false. split; [reflexivity|]. split; [discriminate|].
    intros [tx' [_ [_ [Hno|[_ [ops' [p [H [Hf [Hm _]]]]]]]]]]; [contradiction|].
    apply mismatch_true in Hrecipient. exfalso. apply Hrecipient.
    replace payment with p by congruence. exact Hm. }
  apply mismatch_false in Hrecipient.
  destruct (provided expectedAmount
            && differs (op_amount payment) (default_to "" expectedAmount))
    eqn:Hamount.
  { exists false. split; [reflexivity|]. split; [discriminate|].
    intros [tx' [_ [_ [Hno|[_ [ops' [p [H [Hf [_ Hm]]]]]]]]]]; [contradiction|].
    apply mismatch_true in Hamount. exfalso. apply Hamount.
    replace payment with p by congruence. exact Hm. }
  apply mismatch_false in Hamount.
  exists true. split; [reflexivity|]. split; [|reflexivity]. intros _.
  exists tx. split; [reflexivity|]. split; [assumption|]. right.
  split; [exact Hsender|].
  exists ops, payment. repeat split; assumption.
Qed.

(** C6. [verifyTransaction] never throws: it always returns a boolean, and
    the boolean is [true] exactly when the transaction is verified, that is
    when its lookup succeeds, it was successful and every provided
    expectation matches.  In particular it returns [false] when the lookup
    throws and when the transaction was not successful, and with no
    expectation provided a successful transaction suffices. *)
Theorem verifyTransaction_returns_whether_verified
    hash network expectedSender expectedRecipient expectedAmount E w :
  exists b,
    fst (verifyTransaction hash network expectedSender expectedRecipient
           expectedAmount E w) = Ok b
    /\ (b = true <-> verified E w hash network expectedSender
                       expectedRecipient expectedAmount)
    /\ (forall e, net_transaction E w (getHorizonClient network) hash = inl e ->
        b = false)
    /\ (forall tx, net_transaction E w (getHorizonClient network) hash = inr tx ->
        successful tx = false -> b = false)
    /\ (forall tx, net_transaction E w (getHorizonClient network) hash = inr tx ->
        successful tx = true ->
        provided expectedSender = false -> provided expectedRecipient = false ->
        provided expectedAmount = false -> b = true).
Proof.
  destruct (verifyTransaction_run hash network expectedSender expectedRecipient
              expectedAmount E w) as [b [Hb Hiff]].
  exists b. split; [exact Hb|]. split; [exact Hiff|].
  split; [|split].
  - intros e He. destruct b; [|reflexivity].
    destruct (proj1 Hiff eq_refl) as [tx [Htx _]]. congruence.
  - intros tx Htx Hs. destruct b; [|reflexivity].
    destruct (proj1 Hiff eq_refl) as [tx' [Htx' [Hs' _]]]. congruence.
  - intros tx Htx Hs H1 H2 H3. apply Hiff. exists tx.
    split; [exact Htx|]. split; [exact Hs|]. left. auto.
Qed.

(** C6 at a confirmed payment whose sender, recipient and amount are the
    expected ones. *)
Lemma verifyTransaction_returns_whether_verified_witness :
  fst (verifyTransaction "ab12" None (Some "GSRC") (Some "GDEST")
         (Some "0.1000000") confirmed start) = Ok true
  /\ fst (verifyTransaction "ab12" None None None None confirmed start) = Ok true
  /\ fst (verifyTransaction "ab12" None None None None never_found start)
     = Ok false.
Proof.
  split; [|split].
  - destruct (verifyTransaction_returns_whether_verified "ab12" None
                (Some "GSRC") (Some "GDEST") (Some "0.1000000") confirmed start)
      as [b [Hb [Hiff _]]].
    rewrite Hb. f_equal. apply Hiff. eexists. split; [reflexivity|].
    split; [reflexivity|]. right. split; [intros _; reflexivity|].
    do 2 eexists. split; [reflexivity|]. split; [reflexivity|].
    split; intros _; reflexivity.
  - destruct (verifyTransaction_returns_whether_verified "ab12" None
                None None None confirmed start) as [b [Hb [_ [_ [_ H]]]]].
    rewrite Hb. f_equal. eapply H; reflexivity.
  - destruct (verifyTransaction_returns_whether_verified "ab12" None
                None None None never_found start) as [b [Hb [_ [H _]]]].
    rewrite Hb. f_equal. eapply H; reflexivity.
Defined.

(** ** Network requests per call *)

Ltac no_retry_events :=
  split; [ repeat constructor; simpl; intuition discriminate
         | repeat constructor ].

Ltac added evs :=
  exists evs; split; [reflexivity | split; [no_retry_events | simpl; lia]].

Lemma verifyPayment_few_requests url tx rcpt amt net :
  few_requests 1 (verifyPayment url tx rcpt amt net).
Proof.
  intros E w. unfold adds.
  destruct (verifyPayment_run url tx rcpt amt net E w) as [v [Hv _]].
  rewrite Hv. simpl. eexists [_]. split; [reflexivity|].
  split; [no_retry_events|simpl; lia].
Qed.

Lemma settlePayment_few_requests url tx net :
  few_requests 1 (settlePayment url tx net).
Proof.
  intros E w. unfold adds.
  destruct (settlePayment_run url tx net E w) as [v [Hv _]].
  rewrite Hv. simpl. eexists [_]. split; [reflexivity|].
  split; [no_retry_events|simpl; lia].
Qed.

Lemma few_requests_weaken {A} (m : M A) (j k : nat) :
  (j <= k)%nat -> few_requests j m -> few_requests k m.
Proof.
  intros Hjk H E w. destruct (H E w) as [evs [Ha [Hn Hl]]].
  exists evs. repeat split; try apply Hn; [exact Ha|lia].
Qed.

Lemma createPaymentResponse_few_requests settlementResult :
  few_requests 0 (createPaymentResponse settlementResult).
Proof.
  intros E w. unfold adds. destruct settlementResult; added (@nil event).
Qed.

Lemma verifyPaymentSimple_few_requests url tx rcpt amt net :
  few_requests 1 (verifyPaymentSimple url tx rcpt amt net).
Proof.
  intros E w. destruct url as [|c url].
  - unfold adds. rewrite verifyPaymentSimple_empty. added (@nil event).
  - unfold adds. rewrite verifyPaymentSimple_nonempty.
    apply verifyPayment_few_requests.
Qed.

Lemma settlePaymentSimple_few_requests url tx net :
  few_requests 1 (settlePaymentSimple url tx net).
Proof.
  intros E w. destruct url as [|c url].
  - unfold adds. rewrite settlePaymentSimple_empty. added (@nil event).
  - unfold adds. rewrite settlePaymentSimple_nonempty.
    apply settlePayment_few_requests.
Qed.

Lemma getKeypairFromSecret_few_requests secretKey :
  few_requests 0 (getKeypairFromSecret secretKey).
Proof.
  intros E w. unfold adds, getKeypairFromSecret, try_catch, lift, ret, throw.
  destruct (sdk_fromSecret E secretKey); added (@nil event).
Qed.

(** [buildPaymentTransaction] loads the source account, once, whatever
    happens next. *)
Lemma buildPaymentTransaction_log kp dest amt network memo E w :
  snd (buildPaymentTransaction kp dest amt network memo E w)
  = after_request E w
      (LoadAccount (getHorizonClient network) (publicKey kp)).
Proof.
  unfold buildPaymentTransaction, bind, call, lift, ret, throw.
  rewrite getHorizonClient_default.
  set (horizon := getHorizonClient network). clearbody horizon.
  destruct (net_loadAccount E w horizon (publicKey kp)); [reflexivity|].
  destruct (sdk_payment E dest amt); [reflexivity|].
  destruct (provided memo); reflexivity.
Qed.

(** What [buildPaymentTransaction] returns: the source account was loaded,
    the SDK made the payment operation, and no memo was given. *)
Lemma buildPaymentTransaction_built kp dest amt network memo E w tx :
  fst (buildPaymentTransaction kp dest amt network memo E w) = Ok tx ->
  exists account payment,
    net_loadAccount E w (getHorizonClient network) (publicKey kp) = inr account
    /\ sdk_payment E dest amt = inr payment
    /\ provided memo = false
    /\ tx = {| tx_source := account_id account;
               tx_sequence := sequence account + 1;
               tx_fee := BASE_FEE;
               tx_networkPassphrase := getNetworkPassphrase network;
               tx_operations := [ payment ];
               tx_memo := None;
               tx_timeout := 180;
               tx_signatures := [] |}.
Proof.
  unfold buildPaymentTransaction, bind, call, lift, ret, throw.
  rewrite getHorizonClient_default.
  replace (getNetworkPassphrase (Some (default_to "stellar-testnet" network)))
    with (getNetworkPassphrase network) by (destruct network; reflexivity).
  set (horizon := getHorizonClient network). clearbody horizon.
  destruct (net_loadAccount E w horizon (publicKey kp)) as [e|account];
    [discriminate|].
  destruct (sdk_payment E dest amt) as [e|payment]; [discriminate|].
  destruct (provided memo); [discriminate|].
  simpl. intros [= <-]. exists account, payment. repeat split.
Qed.

Lemma buildPaymentTransaction_few_requests kp dest amt network memo :
  few_requests 1 (buildPaymentTransaction kp dest amt network memo).
Proof.
  intros E w. unfold adds. rewrite buildPaymentTransaction_log.
  simpl. eexists [_]. split; [reflexivity|].
  split; [no_retry_events|simpl; lia].
Qed.

Lemma few_requests_no_timer {A} (m : M A) (k : nat) :
  few_requests k m -> no_timer k m.
Proof.
  intros H E w. destruct (H E w) as [evs [Ha [[_ Hn] Hl]]].
  exists evs. auto.
Qed.

Lemma no_timer_at_most {A} (m : M A) (k : nat) :
  no_timer k m -> at_most k m.
Proof.
  intros H E w. destruct (H E w) as [evs [Ha [_ Hl]]].
  unfold adds in Ha. unfold requests. rewrite Ha, filter_app, length_app.
  pose proof (filter_length_le is_net evs). lia.
Qed.

Lemma few_requests_at_most {A} (m : M A) (k : nat) :
  few_requests k m -> at_most k m.
Proof. intros H. apply no_timer_at_most, few_requests_no_timer, H. Qed.

(** The memo-required check loads at most one account per operation. *)
Lemma check_destinations_log horizon :
  forall operations destinations E w,
  exists evs,
    log (snd (Sdk.check_destinations horizon operations destinations E w))
    = (evs ++ log w)%list
    /\ Forall (fun e => is_net e = true) evs
    /\ (List.length evs <= List.length operations)%nat.
Proof.
  induction operations as [|operation rest IH]; intros destinations E w.
  - exists []. repeat split; [constructor|simpl; lia].
  - cbn [Sdk.check_destinations].
    destruct (existsb _ destinations).
    { destruct (IH destinations E w) as [evs [Hl [Hn Hk]]].
      exists evs. repeat split; [exact Hl|exact Hn|simpl; lia]. }
    destruct (Sdk.is_muxed _).
    { destruct (IH (destination operation :: destinations) E w)
        as [evs [Hl [Hn Hk]]].
      exists evs. repeat split; [exact Hl|exact Hn|simpl; lia]. }
    unfold bind at 1. unfold try_catch, bind, call, ret, throw.
    set (w1 := after_request E w (LoadAccount horizon (destination operation))).
    assert (Hone : forall evs,
               log (snd (Sdk.check_destinations horizon rest
                           (destination operation :: destinations) E w1))
               = (evs ++ log w1)%list ->
               Forall (fun e => is_net e = true) evs ->
               (List.length evs <= List.length rest)%nat ->
               exists evs',
                 log (snd (Sdk.check_destinations horizon rest
                             (destination operation :: destinations) E w1))
                 = (evs' ++ log w)%list
                 /\ Forall (fun e => is_net e = true) evs'
                 /\ (List.length evs' <= List.length (operation :: rest))%nat).
    { intros evs Hl Hn Hk.
      exists (evs ++ [Net (LoadAccount horizon (destination operation))])%list.
      split; [|split].
      - rewrite Hl. unfold w1. simpl. rewrite <- app_assoc. reflexivity.
      - apply Forall_app. split; [exact Hn|repeat constructor].
      - rewrite length_app. simpl. lia. }
    assert (Hstop : exists evs',
               log w1 = (evs' ++ log w)%list
               /\ Forall (fun e => is_net e = true) evs'
               /\ (List.length evs' <= List.length (operation :: rest))%nat).
    { exists [Net (LoadAccount horizon (destination operation))].
      repeat split; [repeat constructor|simpl; lia]. }
    destruct (IH (destination operation :: destinations) E w1)
      as [evs [Hl [Hn Hk]]].
    destruct (net_loadAccount E w horizon (destination operation))
      as [e|account]; fold w1.
    + destruct (Sdk.is_NotFoundError e); simpl.
      * apply (Hone evs); assumption.
      * exact Hstop.
    + destruct (Sdk.requires_memo account); simpl.
      * exact Hstop.
      * apply (Hone evs); assumption.
Qed.

(** [server.submitTransaction] posts once, after at most one request per
    operation. *)
Lemma submitTransaction_log horizon tx E w :
  exists evs,
    log (snd (Sdk.submitTransaction horizon tx E w)) = (evs ++ log w)%list
    /\ Forall (fun e => is_net e = true) evs
    /\ (List.length evs <= S (List.length (tx_operations tx)))%nat.
Proof.
  unfold Sdk.submitTransaction, Sdk.checkMemoRequired. unfold bind at 1.
  assert (Hcheck : exists evs,
             log (snd (match tx_memo tx with
                       | Some _ => ret tt
                       | None => Sdk.check_destinations horizon (tx_operations tx) []
                       end E w)) = (evs ++ log w)%list
             /\ Forall (fun e => is_net e = true) evs
             /\ (List.length evs <= List.length (tx_operations tx))%nat).
  { destruct (tx_memo tx).
    - exists []. repeat split; [constructor|simpl; lia].
    - apply check_destinations_log. }
  destruct Hcheck as [evs [Hl [Hn Hk]]].
  destruct (match tx_memo tx with
            | Some _ => ret tt
            | None => Sdk.check_destinations horizon (tx_operations tx) []
            end E w) as [[[]|e|] w1]; simpl in Hl.
  - unfold call.
    exists (Net (SubmitTransaction horizon tx) :: evs).
    destruct (net_submitTransaction E w1 horizon tx); simpl; rewrite Hl;
      (repeat split; [constructor; [reflexivity|exact Hn]|simpl; lia]).
  - exists evs. simpl. repeat split; [exact Hl|exact Hn|lia].
  - exists evs. simpl. repeat split; [exact Hl|exact Hn|lia].
Qed.

(** [signAndSubmitPayment] makes at most three requests: the source account,
    the destination account, the submission. *)
Lemma signAndSubmitPayment_no_timer kp dest amt network memo :
  no_timer 3 (signAndSubmitPayment kp dest amt network memo).
Proof.
  intros E w. unfold adds, signAndSubmitPayment.
  unfold bind at 1.
  pose proof (buildPaymentTransaction_log kp dest amt
                (Some (default_to "stellar-testnet" network)) memo E w) as Hlog.
  pose proof (buildPaymentTransaction_built kp dest amt
                (Some (default_to "stellar-testnet" network)) memo E w) as Hbuilt.
  rewrite getHorizonClient_default in Hlog.
  destruct (buildPaymentTransaction kp dest amt
              (Some (default_to "stellar-testnet" network)) memo E w)
    as [[tx|e|] w1]; simpl in Hlog; subst w1.
  - destruct (Hbuilt tx eq_refl) as [account [payment [_ [_ [_ Htx]]]]].
    unfold bind at 1. unfold Sdk.sign.
    destruct (secret kp) as [sk|].
    2:{ simpl. eexists [_]. repeat split; [repeat constructor|simpl; lia]. }
    unfold ret at 1.
    set (signed := {| tx_source := tx_source tx;
                      tx_sequence := tx_sequence tx;
                      tx_fee := tx_fee tx;
                      tx_networkPassphrase := tx_networkPassphrase tx;
                      tx_operations := tx_operations tx;
                      tx_memo := tx_memo tx;
                      tx_timeout := tx_timeout tx;
                      tx_signatures := _ |}).
    set (w1 := after_request E w _).
    destruct (submitTransaction_log
                (getHorizonClient (Some (default_to "stellar-testnet" network)))
                signed E w1) as [evs [Hl [Hn Hk]]].
    assert (Hops : List.length (tx_operations signed) = 1%nat)
      by (unfold signed; rewrite Htx; reflexivity).
    rewrite Hops in Hk.
    assert (Hend : forall w2, log w2 = (evs ++ log w1)%list ->
               exists evs', log w2 = (evs' ++ log w)%list
                 /\ Forall (fun e => is_net e = true) evs'
                 /\ (List.length evs' <= 3)%nat).
    { intros w2 H2.
      exists (evs ++ [Net (LoadAccount (getHorizonClient network) (publicKey kp))])%list.
      split; [|split].
      - rewrite H2. unfold w1. simpl. rewrite <- app_assoc. reflexivity.
      - apply Forall_app. split; [exact Hn|repeat constructor].
      - rewrite length_app. simpl. lia. }
    unfold try_catch.
    destruct (Sdk.submitTransaction _ signed E w1) as [[hash|e|] w2];
      simpl in Hl; try (apply Hend; exact Hl).
    destruct (truthy (response_data e)).
    + unfold bind, lift. destruct (get (response_data e) "extras");
        simpl; apply Hend; exact Hl.
    + simpl. apply Hend; exact Hl.
  - simpl. eexists [_]. repeat split; [repeat constructor|simpl; lia].
  - simpl. eexists [_]. repeat split; [repeat constructor|simpl; lia].
Qed.

Lemma getAccountBalance_few_requests accountAddress network :
  few_requests 1 (getAccountBalance accountAddress network).
Proof.
  intros E w. unfold adds, getAccountBalance, try_catch, bind, call, ret.
  set (horizon := getHorizonClient _). clearbody horizon.
  destruct (net_loadAccount E w horizon accountAddress) as [e|account].
  - simpl. eexists [_]. split; [reflexivity|].
    split; [no_retry_events|simpl; lia].
  - destruct (find is_native (balances account)); simpl;
      eexists [_]; (split; [reflexivity|]);
      (split; [no_retry_events|simpl; lia]).
Qed.

Lemma verifyTransaction_few_requests hash network sender recipient amount :
  few_requests 2 (verifyTransaction hash network sender recipient amount).
Proof.
  intros E w. unfold adds, verifyTransaction, try_catch, bind, call, ret.
  set (horizon := getHorizonClient _). clearbody horizon.
  destruct (net_transaction E w horizon hash) as [e|tx].
  { simpl. eexists [_]. split; [reflexivity|].
    split; [no_retry_events|simpl; lia]. }
  destruct (negb (successful tx)).
  { simpl. eexists [_]. split; [reflexivity|].
    split; [no_retry_events|simpl; lia]. }
  destruct (negb (provided sender) && negb (provided recipient)
            && negb (provided amount)).
  { simpl. eexists [_]. split; [reflexivity|].
    split; [no_retry_events|simpl; lia]. }
  destruct (provided sender && _).
  { simpl. eexists [_]. split; [reflexivity|].
    split; [no_retry_events|simpl; lia]. }
  destruct (net_operations E _ horizon hash) as [e|ops].
  { simpl. eexists [_; _]. split; [reflexivity|].
    split; [no_retry_events|simpl; lia]. }
  destruct (find is_native_payment ops) as [p|].
  2:{ simpl. eexists [_; _]. split; [reflexivity|].
      split; [no_retry_events|simpl; lia]. }
  destruct (provided recipient && _).
  { simpl. eexists [_; _]. split; [reflexivity|].
    split; [no_retry_events|simpl; lia]. }
  destruct (provided amount && _);
    simpl; eexists [_; _]; (split; [reflexivity|]);
    (split; [no_retry_events|simpl; lia]).
Qed.

(** ** The polling loop *)

Lemma passes_left_positive (left : Z) : 0 < left -> (1 <= passes_left left)%nat.
Proof.
  intros H. unfold passes_left.
  assert (1 <= (left + 999) / 1000) by (apply Z.div_le_lower_bound; lia).
  lia.
Qed.

Lemma passes_left_after_wait (left spent : Z) :
  0 < left -> 1000 <= spent ->
  (S (passes_left (left - spent)) <= passes_left left)%nat.
Proof.
  intros Hl Hs. unfold passes_left.
  assert (H1 : 1 <= (left + 999) / 1000) by (apply Z.div_le_lower_bound; lia).
  assert (H2 : (left - spent + 999) / 1000 <= (left + 999) / 1000 - 1).
  { replace ((left + 999) / 1000 - 1) with ((left + 999 + (-1) * 1000) / 1000).
    - apply Z.div_le_mono; lia.
    - rewrite Z.div_add by lia. lia. }
  lia.
Qed.

Lemma passes_left_whole (seconds : Z) :
  passes_left (seconds * 1000) = Z.to_nat seconds.
Proof.
  unfold passes_left. f_equal.
  rewrite Z.add_comm, Z.div_add by lia. reflexivity.
Qed.


(** An elapsed time that is below the timeout is below its limit. *)
Lemma lt_Z_limit (z : Z) (x : Number.number) (limit : Z) :
  Number.lt_Z z x = true -> limit_ms x = Some limit -> z < limit.
Proof.
  unfold Number.lt_Z, limit_ms.
  destruct (Prim2SF x) as [s|s| |s m e].
  - intros H [= <-]. apply Z.ltb_lt. exact H.
  - destruct s; [discriminate|]. discriminate.
  - discriminate.
  - cbv zeta. destruct (0 <=? e) eqn:He.
    + intros H [= <-]. apply Z.ltb_lt. exact H.
    + intros H [= <-]. apply Z.ltb_lt in H. apply Z.leb_gt in He.
      assert (Hb : 0 < 2 ^ (- e)) by (apply Z.pow_pos_nonneg; lia).
      set (v := if s then Z.neg m else Z.pos m) in *.
      assert ((- v) / 2 ^ (- e) < - z)
        by (apply Z.div_lt_upper_bound; [exact Hb|lia]).
      lia.
Qed.

(** The limit is the least such bound: an elapsed time below the limit of a
    timeout that some time is below, is below the timeout. *)
Lemma limit_lt_Z (z : Z) (x : Number.number) (limit : Z) :
  limit_ms x = Some limit -> z < limit ->
  (exists z', Number.lt_Z z' x = true) ->
  Number.lt_Z z x = true.
Proof.
  unfold Number.lt_Z, limit_ms.
  destruct (Prim2SF x) as [s|s| |s m e].
  - intros [= <-] H _. apply Z.ltb_lt. exact H.
  - destruct s; [|discriminate]. intros _ _ [z' H]. discriminate.
  - intros _ _ [z' H]. discriminate.
  - cbv zeta. destruct (0 <=? e) eqn:He.
    + intros [= <-] H _. apply Z.ltb_lt. exact H.
    + intros [= <-] H _. apply Z.ltb_lt. apply Z.leb_gt in He.
      assert (Hb : 0 < 2 ^ (- e)) by (apply Z.pow_pos_nonneg; lia).
      set (v := if s then Z.neg m else Z.pos m) in *.
      set (b := 2 ^ (- e)) in *.
      assert (Hq : (- v) / b + 1 <= - z) by lia.
      assert (Hr : - v < b * ((- v) / b + 1)).
      { pose proof (Z.mod_pos_bound (- v) b Hb) as Hmod.
        pose proof (Z.div_mod (- v) b ltac:(lia)) as Hdm. lia. }
      assert (Hs : b * ((- v) / b + 1) <= b * (- z))
        by (apply Z.mul_le_mono_nonneg_l; lia).
      lia.
Qed.

(** One pass of the loop. *)
Lemma waitForTransaction_loop_step
    fuel horizon hash startTime timeoutMs timeoutSeconds E w :
  waitForTransaction_loop (S fuel) horizon hash startTime timeoutMs
    timeoutSeconds E w
  = if Number.lt_Z (now w - startTime) timeoutMs then
      match net_transaction E w horizon hash with
      | inr tx =>
          (Ok (successful tx), after_request E w (GetTransaction horizon hash))
      | inl e =>
          if is_not_found e then
            waitForTransaction_loop fuel horizon hash startTime timeoutMs
              timeoutSeconds E
              (slept E 1000 (after_request E w (GetTransaction horizon hash)))
          else (Throw e, after_request E w (GetTransaction horizon hash))
      end
    else (Throw (timeout_error timeoutSeconds), w).
Proof.
  cbn [waitForTransaction_loop]. unfold bind at 1. unfold date_now.
  destruct (Number.lt_Z (now w - startTime) timeoutMs); [|reflexivity].
  unfold try_catch, bind, call, ret, throw.
  destruct (net_transaction E w horizon hash) as [e|tx]; [|reflexivity].
  destruct (is_not_found e); reflexivity.
Qed.


(** With a timeout that has a limit, the loop ends: it evaluates its
    condition at most once more than there are seconds left. *)
Lemma waitForTransaction_loop_ends
    E horizon hash startTime timeoutMs timeoutSeconds limit :
  limit_ms timeoutMs = Some limit ->
  forall fuel w,
    (passes_left (limit - (now w - startTime)) < fuel)%nat ->
    fst (waitForTransaction_loop fuel horizon hash startTime timeoutMs
           timeoutSeconds E w) <> OutOfFuel.
Proof.
  intros Hlimit.
  induction fuel as [|fuel IH]; intros w Hfuel; [lia|].
  rewrite waitForTransaction_loop_step.
  destruct (Number.lt_Z (now w - startTime) timeoutMs) eqn:Hlt.
  2:{ discriminate. }
  pose proof (lt_Z_limit _ _ _ Hlt Hlimit) as Hz.
  destruct (net_transaction E w horizon hash) as [e|tx] eqn:Htx.
  2:{ discriminate. }
  destruct (is_not_found e) eqn:Hnf; [|discriminate].
  apply IH. simpl.
  pose proof (passes_left_after_wait (limit - (now w - startTime))
                (Z.of_N (latency E w (GetTransaction horizon hash)) + 1000
                 + Z.of_N (timer_lag E (after_request E w (GetTransaction horizon hash)) 1000))
                ltac:(lia) ltac:(lia)) as Hp.
  match goal with
  | |- (passes_left ?a < _)%nat =>
      match type of Hp with
      | (S (passes_left ?b) <= _)%nat => replace a with b by (simpl; lia)
      end
  end.
  lia.
Qed.

(** Each pass makes one request: at most one per second of the time left
    when the timeout has a limit, and at most one per unit of fuel. *)
Lemma waitForTransaction_loop_requests
    E horizon hash startTime timeoutMs timeoutSeconds limit :
  limit_ms timeoutMs = Some limit ->
  forall fuel w,
    (requests (snd (waitForTransaction_loop fuel horizon hash startTime
                      timeoutMs timeoutSeconds E w))
     <= requests w + passes_left (limit - (now w - startTime)))%nat.
Proof.
  intros Hlimit.
  induction fuel as [|fuel IH]; intros w; [simpl; lia|].
  rewrite waitForTransaction_loop_step.
  destruct (Number.lt_Z (now w - startTime) timeoutMs) eqn:Hlt.
  2:{ simpl. lia. }
  pose proof (lt_Z_limit _ _ _ Hlt Hlimit) as Hz.
  pose proof (passes_left_positive (limit - (now w - startTime)) ltac:(lia)) as H1.
  destruct (net_transaction E w horizon hash) as [e|tx] eqn:Htx.
  2:{ unfold requests in *. simpl. lia. }
  destruct (is_not_found e) eqn:Hnf.
  2:{ unfold requests in *. simpl. lia. }
  set (w1 := after_request E w (GetTransaction horizon hash)).
  specialize (IH (slept E 1000 w1)).
  pose proof (passes_left_after_wait (limit - (now w - startTime))
                (Z.of_N (latency E w (GetTransaction horizon hash)) + 1000
                 + Z.of_N (timer_lag E w1 1000))
                ltac:(lia) ltac:(lia)) as Hp.
  match type of IH with
  | context [passes_left ?a] =>
      match type of Hp with
      | (S (passes_left ?b) <= _)%nat =>
          replace a with b in IH by (unfold w1; simpl; lia)
      end
  end.
  assert (Hr : requests (slept E 1000 w1) = S (requests w)) by reflexivity.
  rewrite Hr in IH. lia.
Qed.

Lemma waitForTransaction_loop_requests_fuel
    E horizon hash startTime timeoutMs timeoutSeconds :
  forall fuel w,
    (requests (snd (waitForTransaction_loop fuel horizon hash startTime
                      timeoutMs timeoutSeconds E w))
     <= requests w + fuel)%nat.
Proof.
  induction fuel as [|fuel IH]; intros w; [simpl; lia|].
  rewrite waitForTransaction_loop_step.
  destruct (Number.lt_Z (now w - startTime) timeoutMs).
  2:{ simpl. lia. }
  destruct (net_transaction E w horizon hash) as [e|tx].
  2:{ unfold requests in *. simpl. lia. }
  destruct (is_not_found e).
  2:{ unfold requests in *. simpl. lia. }
  specialize (IH (slept E 1000 (after_request E w (GetTransaction horizon hash)))).
  assert (Hr : requests (slept E 1000 (after_request E w (GetTransaction horizon hash)))
               = S (requests w)) by reflexivity.
  rewrite Hr in IH. lia.
Qed.



Lemma waitForTransaction_unfold fuel hash network timeoutSeconds E w :
  waitForTransaction fuel hash network timeoutSeconds E w
  = waitForTransaction_loop fuel (getHorizonClient network) hash (now w)
      (PrimFloat.mul (default_to (Number.of_Z 30) timeoutSeconds) (Number.of_Z 1000))
      (default_to (Number.of_Z 30) timeoutSeconds) E w.
Proof.
  unfold waitForTransaction, bind, date_now.
  rewrite getHorizonClient_default. reflexivity.
Qed.

(** With an infinite timeout and a Horizon that never knows the
    transaction, the loop does not end: every pass makes a request and sets
    a timer. *)
Lemma waitForTransaction_loop_never_ends horizon hash startTime timeoutSeconds :
  forall fuel w,
    fst (waitForTransaction_loop fuel horizon hash startTime PrimFloat.infinity
           timeoutSeconds never_found w) = OutOfFuel
    /\ requests (snd (waitForTransaction_loop fuel horizon hash startTime
                        PrimFloat.infinity timeoutSeconds never_found w))
       = (requests w + fuel)%nat.
Proof.
  induction fuel as [|fuel IH]; intros w.
  - split; [reflexivity|simpl; lia].
  - rewrite waitForTransaction_loop_step.
    replace (Number.lt_Z (now w - startTime) PrimFloat.infinity) with true
      by reflexivity.
    cbn [never_found net_transaction].
    replace (is_not_found not_found) with true by reflexivity.
    destruct (IH (slept never_found 1000
                    (after_request never_found w (GetTransaction horizon hash))))
      as [H1 H2].
    split; [exact H1|]. rewrite H2. unfold requests. simpl. lia.
Qed.

(** Runs of the loop.  Horizon learns of the transaction 2.5 seconds after
    the start; the fourth query finds it. *)
Example waitForTransaction_finds_after_three_waits :
  waitForTransaction 31 "ab12" None None (found_from 2500) start
  = (Ok true,
     {| now := 3800;
        log := let query := Net (GetTransaction
                                   {| serverURL := "https://horizon-testnet.stellar.org";
                                      allowHttp := false |} "ab12") in
               [ query; Sleep 1000; query; Sleep 1000; query; Sleep 1000; query ] |}).
Proof. vm_compute. reflexivity. Qed.

(** With a timeout of two seconds the same wait ends in the timeout error,
    after two queries. *)
Example waitForTransaction_times_out :
  fst (waitForTransaction 31 "ab12" None (Some (Number.of_Z 2)) (found_from 2500) start)
  = Throw (JsError "Transaction not found after 2 seconds" None)
  /\ requests (snd (waitForTransaction 31 "ab12" None (Some (Number.of_Z 2))
                      (found_from 2500) start))
     = 2%nat.
Proof. split; vm_compute; reflexivity. Qed.

(** Timeouts that are no whole number of seconds: half a second allows one
    query, two and a half seconds allow three; a timeout that is not a
    number allows none. *)
Example waitForTransaction_fractional_timeouts :
  waitForTransaction 31 "ab12" None (Some (Number.parseFloat "0.5")) never_found start
  = (Throw (JsError "Transaction not found after 0.5 seconds" None),
     {| now := 1000;
        log := let query := Net (GetTransaction
                                   {| serverURL := "https://horizon-testnet.stellar.org";
                                      allowHttp := false |} "ab12") in
               [ Sleep 1000; query ] |})
  /\ requests (snd (waitForTransaction 31 "ab12" None (Some (Number.parseFloat "2.5"))
                      never_found start)) = 3%nat
  /\ waitForTransaction 31 "ab12" None (Some PrimFloat.nan) never_found start
     = (Throw (JsError "Transaction not found after NaN seconds" None), start)
  /\ limit_ms (PrimFloat.mul (Number.parseFloat "0.5") (Number.of_Z 1000)) = Some 500
  /\ limit_ms (PrimFloat.mul (Number.parseFloat "0.0004") (Number.of_Z 1000)) = Some 1
  /\ limit_ms (PrimFloat.mul PrimFloat.nan (Number.of_Z 1000)) = Some 0
  /\ limit_ms (PrimFloat.mul PrimFloat.infinity (Number.of_Z 1000)) = None.
Proof. repeat split; vm_compute; reflexivity. Qed.

(** The comparison of a whole number with a number agrees with the
    comparison of numbers. *)
Example lt_Z_is_the_comparison_of_numbers :
  forallb (fun '(z, x) =>
             Bool.eqb (Number.lt_Z z x) (PrimFloat.ltb (Number.of_Z z) x))
    [ (0, Number.of_Z 30000); (29999, Number.of_Z 30000);
      (30000, Number.of_Z 30000); (499, Number.parseFloat "499.5");
      (500, Number.parseFloat "499.5"); (0, Number.parseFloat "0.4");
      (0, PrimFloat.zero); (-1, PrimFloat.zero); (0, PrimFloat.nan);
      (5, PrimFloat.infinity); (5, PrimFloat.neg_infinity);
      (-3, Number.parseFloat "-2.5"); (-2, Number.parseFloat "-2.5");
      (9007199254740991, Number.of_Z 9007199254740992) ]
  = true.
Proof. vm_compute. reflexivity. Qed.

(** The three requests of a payment: the accounts of the source and of the
    destination are loaded, the transaction is posted. *)
Example signAndSubmitPayment_makes_three_requests :
  signAndSubmitPayment source_key "GDEST" "0.1" None None funded start
  = (Ok "ab12",
     {| now := 450;
        log := let horizon := {| serverURL := "https://horizon-testnet.stellar.org";
                                 allowHttp := false |} in
               let tx := {| tx_source := "GSRC";
                            tx_sequence := 42;
                            tx_fee := "100";
                            tx_networkPassphrase := Networks.TESTNET;
                            tx_operations := [ {| destination := "GDEST";
                                                  asset := Native;
                                                  amount := "0.1000000" |} ];
                            tx_memo := None;
                            tx_timeout := 180;
                            tx_signatures := [ ("GSRC", "GSRC") ] |} in
               [ Net (SubmitTransaction horizon tx);
                 Net (LoadAccount horizon "GDEST");
                 Net (LoadAccount horizon "GSRC") ] |}).
Proof. vm_compute. reflexivity. Qed.

(** With a memo the payment is not made: the memo cannot be built. *)
Example signAndSubmitPayment_with_a_memo :
  fst (signAndSubmitPayment source_key "GDEST" "0.1" None (Some "invoice 7")
         funded start)
  = Throw (JsError "Cannot read properties of undefined (reading 'text')" None).
Proof. vm_compute. reflexivity. Qed.

(** C4 (counterexample). When Horizon does not know the transaction,
    [waitForTransaction] with the default timeout makes thirty requests
    before it ends with the timeout error. *)
Lemma waitForTransaction_makes_thirty_requests :
  fst (waitForTransaction 31 "ab12" None None never_found start)
  = Throw (JsError "Transaction not found after 30 seconds" None)
  /\ requests (snd (waitForTransaction 31 "ab12" None None never_found start))
     = 30%nat
  /\ ~ (requests (snd (waitForTransaction 31 "ab12" None None never_found start))
        <= requests start + 2)%nat.
Proof.
  assert (H : requests (snd (waitForTransaction 31 "ab12" None None never_found start))
              = 30%nat) by (vm_compute; reflexivity).
  split; [vm_compute; reflexivity|].
  split; [exact H|]. rewrite H. vm_compute. intros Hle.
  repeat (apply le_S_n in Hle). inversion Hle.
Qed.

(** C4 (amended). Every exported function other than [waitForTransaction]
    makes at most three network requests before it returns: at most one for
    [verifyPayment], [settlePayment], their [Simple] wrappers,
    [buildPaymentTransaction] and [getAccountBalance], at most two for
    [verifyTransaction], at most three for [signAndSubmitPayment] (the source
    account, the destination account, the submission), none for
    [createPaymentResponse] and [getKeypairFromSecret] (and none for the pure
    functions, which do not run in the world).  [waitForTransaction] makes
    one request per polling pass: when the timeout is not infinite, at most
    one per started second of its [timeoutSeconds * 1000] milliseconds (30 by
    default, one for half a second, none for a timeout that is not above
    zero); with an infinite timeout the number of requests has no bound. *)
Theorem requests_per_exported_function :
  (forall url tx rcpt amt net, at_most 1 (verifyPayment url tx rcpt amt net))
  /\ (forall url tx net, at_most 1 (settlePayment url tx net))
  /\ (forall result, at_most 0 (createPaymentResponse result))
  /\ (forall url tx rcpt amt net, at_most 1 (verifyPaymentSimple url tx rcpt amt net))
  /\ (forall url tx net, at_most 1 (settlePaymentSimple url tx net))
  /\ (forall secretKey, at_most 0 (getKeypairFromSecret secretKey))
  /\ (forall kp dest amt network memo,
        at_most 1 (buildPaymentTransaction kp dest amt network memo))
  /\ (forall kp dest amt network memo,
        at_most 3 (signAndSubmitPayment kp dest amt network memo))
  /\ (forall account network, at_most 1 (getAccountBalance account network))
  /\ (forall hash network sender recipient amount,
        at_most 2 (verifyTransaction hash network sender recipient amount))
  /\ (forall fuel hash network timeoutSeconds limit,
        limit_ms (PrimFloat.mul (default_to (Number.of_Z 30) timeoutSeconds)
                    (Number.of_Z 1000)) = Some limit ->
        at_most (passes_left limit)
          (waitForTransaction fuel hash network timeoutSeconds))
  /\ (forall passes hash network timeoutSeconds,
        at_most passes (waitForTransaction passes hash network timeoutSeconds))
  /\ (forall passes hash network,
        requests (snd (waitForTransaction passes hash network
                         (Some PrimFloat.infinity) never_found start))
        = passes).
Proof.
  split; [intros; apply few_requests_at_most, verifyPayment_few_requests|].
  split; [intros; apply few_requests_at_most, settlePayment_few_requests|].
  split; [intros; apply few_requests_at_most, createPaymentResponse_few_requests|].
  split; [intros; apply few_requests_at_most, verifyPaymentSimple_few_requests|].
  split; [intros; apply few_requests_at_most, settlePaymentSimple_few_requests|].
  split; [intros; apply few_requests_at_most, getKeypairFromSecret_few_requests|].
  split; [intros; apply few_requests_at_most, buildPaymentTransaction_few_requests|].
  split; [intros; apply no_timer_at_most, signAndSubmitPayment_no_timer|].
  split; [intros; apply few_requests_at_most, getAccountBalance_few_requests|].
  split; [intros; apply few_requests_at_most, verifyTransaction_few_requests|].
  split; [|split].
  - intros fuel hash network timeoutSeconds limit Hlimit E w.
    rewrite waitForTransaction_unfold.
    pose proof (waitForTransaction_loop_requests E (getHorizonClient network)
                  hash (now w) _ (default_to (Number.of_Z 30) timeoutSeconds)
                  limit Hlimit fuel w) as H.
    replace (limit - (now w - now w)) with limit in H by lia.
    exact H.
  - intros passes hash network timeoutSeconds E w.
    rewrite waitForTransaction_unfold.
    apply waitForTransaction_loop_requests_fuel.
  - intros passes hash network.
    rewrite waitForTransaction_unfold.
    replace (PrimFloat.mul (default_to (Number.of_Z 30) (Some PrimFloat.infinity))
               (Number.of_Z 1000))
      with PrimFloat.infinity by (vm_compute; reflexivity).
    apply waitForTransaction_loop_never_ends.
Qed.

Lemma requests_per_exported_function_witness :
  at_most 30 (waitForTransaction 31 "ab12" None None)
  /\ at_most 1 (waitForTransaction 31 "ab12" None (Some (Number.parseFloat "0.5")))
  /\ at_most 3 (waitForTransaction 31 "ab12" None (Some (Number.parseFloat "2.5")))
  /\ at_most 0 (waitForTransaction 31 "ab12" None (Some PrimFloat.nan)).
Proof.
  destruct requests_per_exported_function
    as (_ & _ & _ & _ & _ & _ & _ & _ & _ & _ & H & _).
  split; [|split; [|split]].
  - apply (H 31%nat "ab12" None None 30000). vm_compute. reflexivity.
  - apply (H 31%nat "ab12" None (Some (Number.parseFloat "0.5")) 500).
    vm_compute. reflexivity.
  - apply (H 31%nat "ab12" None (Some (Number.parseFloat "2.5")) 2500).
    vm_compute. reflexivity.
  - apply (H 31%nat "ab12" None (Some PrimFloat.nan) 0).
    vm_compute. reflexivity.
Defined.



(** * Further properties *)

(** ** Network names *)

Lemma lower_char_idempotent (c : ascii) :
  JsString.lower_char (JsString.lower_char c) = JsString.lower_char c.
Proof. destruct c as [[] [] [] [] [] [] [] []]; reflexivity. Qed.

Lemma toLowerCase_idempotent (s : string) :
  JsString.toLowerCase (JsString.toLowerCase s) = JsString.toLowerCase s.
Proof.
  induction s as [|c s IH]; simpl; [reflexivity|].
  now rewrite lower_char_idempotent, IH.
Qed.

(** X1. Network names are case-insensitive: two names with the same lower
    case, in particular a name and its lower case, get the same Horizon
    server and the same passphrase. *)
Theorem network_names_ignore_case (a b : string) :
  JsString.toLowerCase a = JsString.toLowerCase b ->
  getHorizonClient (Some a) = getHorizonClient (Some b)
  /\ getNetworkPassphrase (Some a) = getNetworkPassphrase (Some b)
  /\ getHorizonClient (Some (JsString.toLowerCase a)) = getHorizonClient (Some a)
  /\ getNetworkPassphrase (Some (JsString.toLowerCase a))
     = getNetworkPassphrase (Some a).
Proof.
  intros H. unfold getHorizonClient, getNetworkPassphrase, default_to.
  rewrite toLowerCase_idempotent, H. repeat split.
Qed.

(** X1 at [STELLAR-MainNet]. *)
Lemma network_names_ignore_case_witness :
  getHorizonClient (Some "STELLAR-MainNet") = getHorizonClient (Some "stellar-mainnet")
  /\ getNetworkPassphrase (Some "STELLAR-MainNet") = Networks.PUBLIC.
Proof.
  destruct (network_names_ignore_case "STELLAR-MainNet" "stellar-mainnet" eq_refl)
    as [Hs [Hp _]].
  split; [exact Hs|]. rewrite Hp. reflexivity.
Defined.

Lemma getHorizonClient_by_name (n : option string) :
  getHorizonClient n =
  match network_of_name (normalized n) with
  | Mainnet => {| serverURL := "https://horizon.stellar.org"; allowHttp := false |}
  | Testnet => {| serverURL := "https://horizon-testnet.stellar.org"; allowHttp := false |}
  | Futurenet => {| serverURL := "https://horizon-futurenet.stellar.org"; allowHttp := false |}
  | Standalone => {| serverURL := "http://localhost:8000"; allowHttp := true |}
  end.
Proof.
  unfold getHorizonClient, network_of_name, normalized.
  set (x := JsString.replace "public" "mainnet" _).
  destruct (String.eqb x "mainnet"); [reflexivity|].
  destruct (String.eqb x "testnet"); [reflexivity|].
  destruct (String.eqb x "futurenet"); [reflexivity|].
  destruct (String.eqb x "local" || String.eqb x "standalone"); reflexivity.
Qed.

Lemma getNetworkPassphrase_by_name (n : option string) :
  getNetworkPassphrase n =
  match network_of_name (normalized n) with
  | Mainnet => Networks.PUBLIC
  | Testnet => Networks.TESTNET
  | Futurenet => Networks.FUTURENET
  | Standalone => Networks.STANDALONE
  end.
Proof.
  unfold getNetworkPassphrase, network_of_name, normalized.
  set (x := JsString.replace "public" "mainnet" _).
  destruct (String.eqb x "mainnet"); [reflexivity|].
  destruct (String.eqb x "testnet"); [reflexivity|].
  destruct (String.eqb x "futurenet"); [reflexivity|].
  destruct (String.eqb x "local" || String.eqb x "standalone"); reflexivity.
Qed.

(** X2. The Horizon server and the passphrase determine each other: two
    network names get the same server exactly when they get the same
    passphrase; plain HTTP is allowed exactly for the standalone network. *)
Theorem server_and_passphrase_determine_each_other (a b : option string) :
  (getHorizonClient a = getHorizonClient b
   <-> getNetworkPassphrase a = getNetworkPassphrase b)
  /\ (allowHttp (getHorizonClient a) = true
      <-> getNetworkPassphrase a = Networks.STANDALONE).
Proof.
  rewrite !getHorizonClient_by_name, !getNetworkPassphrase_by_name.
  destruct (network_of_name (normalized a)), (network_of_name (normalized b));
    split; split; intros H; try reflexivity; discriminate.
Qed.

(** X3. Every documented network name, in any case and with or without the
    ["stellar-"] prefix, selects the server and the passphrase of its
    network. *)
Theorem documented_names_select_their_network name net (s : string) :
  In (name, net) documented_names ->
  JsString.toLowerCase s = name \/ JsString.toLowerCase s = "stellar-" ++ name ->
  network_of_server (getHorizonClient (Some s)) = Some net
  /\ network_of_passphrase (getNetworkPassphrase (Some s)) = Some net.
Proof.
  intros Hin Hs.
  unfold getHorizonClient, getNetworkPassphrase, default_to.
  simpl in Hin.
  repeat (destruct Hin as [[= <- <-]|Hin]);
    try contradiction;
    (destruct Hs as [-> | ->]; split; reflexivity).
Qed.

(** X3 at [Stellar-PUBLIC]. *)
Lemma documented_names_select_their_network_witness :
  network_of_server (getHorizonClient (Some "Stellar-PUBLIC")) = Some Mainnet
  /\ network_of_passphrase (getNetworkPassphrase (Some "Stellar-PUBLIC")) = Some Mainnet.
Proof.
  apply (documented_names_select_their_network "public" Mainnet "Stellar-PUBLIC").
  - simpl. auto.
  - right. reflexivity.
Defined.

Lemma same_network (n : option string) :
  network_of_passphrase (getNetworkPassphrase n)
  = network_of_server (getHorizonClient n).
Proof.
  rewrite getHorizonClient_by_name, getNetworkPassphrase_by_name.
  destruct (network_of_name (normalized n)); reflexivity.
Qed.

(** ** More on the facilitator client *)

(** The complete table of one facilitator call. *)
Lemma post_and_map_table (flag fallback url : string) (body : option string) E w :
  try_catch
    (response <- fetch_post url body ;;
     data <- lift (json response) ;;
     if negb (ok response) then
       error <- lift (get data "error") ;;
       message <- lift (get data "message") ;;
       ret (VObj [ (flag, VBool false);
                   ("error", or_else error (VStr fallback));
                   ("message", or_else message
                                 (VStr ("HTTP " ++ JsString.of_Z (status response)))) ])
     else ret data)
    (fun error =>
       ret (VObj [ (flag, VBool false);
                   ("error", VStr "Network error");
                   ("message", VStr (message_of error)) ])) E w
  = (Ok match net_fetch E w url body with
        | inl e => network_error flag e
        | inr r =>
            match json r with
            | inl e => network_error flag e
            | inr data =>
                if ok r then data
                else match get data "error" with
                     | inl e => network_error flag e
                     | inr error =>
                         VObj [ (flag, VBool false);
                                ("error", or_else error (VStr fallback));
                                ("message",
                                 or_else (get_opt data "message")
                                   (VStr ("HTTP " ++ JsString.of_Z (status r)))) ]
                     end
            end
        end,
     after_request E w (Fetch url "POST" json_headers body)).
Proof.
  unfold try_catch, bind, fetch_post, call, lift, ret, throw.
  destruct (net_fetch E w url body) as [e|r]; [reflexivity|].
  destruct (json r) as [e|data]; [reflexivity|].
  destruct (ok r); [reflexivity|].
  destruct data; reflexivity.
Qed.

Lemma verifyPayment_table url tx rcpt amt net E w :
  let body := stringify (VObj [ ("signedTransaction", VStr tx);
                                ("expectedRecipient", VStr rcpt);
                                ("expectedAmount", VStr amt);
                                ("expectedNetwork",
                                 VStr (default_to "stellar-testnet" net)) ]) in
  verifyPayment url tx rcpt amt net E w
  = (Ok match net_fetch E w url body with
        | inl e => network_error "valid" e
        | inr r =>
            match json r with
            | inl e => network_error "valid" e
            | inr data =>
                if ok r then data
                else match get data "error" with
                     | inl e => network_error "valid" e
                     | inr error =>
                         VObj [ ("valid", VBool false);
                                ("error", or_else error (VStr "Verification failed"));
                                ("message",
                                 or_else (get_opt data "message")
                                   (VStr ("HTTP " ++ JsString.of_Z (status r)))) ]
                     end
            end
        end,
     after_request E w (Fetch url "POST" json_headers body)).
Proof.
  intros body.
  exact (post_and_map_table "valid" "Verification failed" url body E w).
Qed.

Lemma settlePayment_table url tx net E w :
  let body := stringify (VObj [ ("signedTransaction", VStr tx);
                                ("expectedNetwork",
                                 VStr (default_to "stellar-testnet" net)) ]) in
  settlePayment url tx net E w
  = (Ok match net_fetch E w url body with
        | inl e => network_error "settled" e
        | inr r =>
            match json r with
            | inl e => network_error "settled" e
            | inr data =>
                if ok r then data
                else match get data "error" with
                     | inl e => network_error "settled" e
                     | inr error =>
                         VObj [ ("settled", VBool false);
                                ("error", or_else error (VStr "Settlement failed"));
                                ("message",
                                 or_else (get_opt data "message")
                                   (VStr ("HTTP " ++ JsString.of_Z (status r)))) ]
                     end
            end
        end,
     after_request E w (Fetch url "POST" json_headers body)).
Proof.
  intros body.
  exact (post_and_map_table "settled" "Settlement failed" url body E w).
Qed.

(** X4. The body is read before the status is looked at: when the body of
    the response is not JSON, [verifyPayment] and [settlePayment] report
    ["Network error"] with the message of the parse error, whatever the
    status, also for a 200. *)
Theorem unreadable_body_is_a_network_error url tx rcpt amt net E w r e :
  let network := default_to "stellar-testnet" net in
  json r = inl e ->
  (net_fetch E w url
     (stringify (VObj [ ("signedTransaction", VStr tx);
                        ("expectedRecipient", VStr rcpt);
                        ("expectedAmount", VStr amt);
                        ("expectedNetwork", VStr network) ])) = inr r ->
   fst (verifyPayment url tx rcpt amt net E w)
   = Ok (VObj [ ("valid", VBool false); ("error", VStr "Network error");
                ("message", VStr (message_of e)) ]))
  /\ (net_fetch E w url
        (stringify (VObj [ ("signedTransaction", VStr tx);
                           ("expectedNetwork", VStr network) ])) = inr r ->
      fst (settlePayment url tx net E w)
      = Ok (VObj [ ("settled", VBool false); ("error", VStr "Network error");
                   ("message", VStr (message_of e)) ])).
Proof.
  intros network Hjson. split; intros Hreply.
  - rewrite verifyPayment_table. cbv zeta. fold network.
    rewrite Hreply, Hjson. reflexivity.
  - rewrite settlePayment_table. cbv zeta. fold network.
    rewrite Hreply, Hjson. reflexivity.
Qed.

(** X4 at a 200 and at a 502 whose body is an HTML page. *)
Lemma unreadable_body_is_a_network_error_witness :
  fst (verifyPayment "https://facilitator.example/verify" "AAAAAgAAAAA=" "GDEST"
         "1000000" None (answering 200 (inl not_json)) start)
  = Ok (VObj [ ("valid", VBool false); ("error", VStr "Network error");
               ("message", VStr "Unexpected token '<'") ])
  /\ fst (settlePayment "https://facilitator.example/settle" "AAAAAgAAAAA="
            None (answering 502 (inl not_json)) start)
     = Ok (VObj [ ("settled", VBool false); ("error", VStr "Network error");
                  ("message", VStr "Unexpected token '<'") ]).
Proof.
  split.
  - apply (unreadable_body_is_a_network_error
             "https://facilitator.example/verify" "AAAAAgAAAAA=" "GDEST" "1000000"
             None (answering 200 (inl not_json)) start
             {| status := 200; json := inl not_json |} not_json eq_refl).
    reflexivity.
  - apply (unreadable_body_is_a_network_error
             "https://facilitator.example/settle" "AAAAAgAAAAA=" "GDEST" "1000000"
             None (answering 502 (inl not_json)) start
             {| status := 502; json := inl not_json |} not_json eq_refl).
    reflexivity.
Defined.

(** X5. An ok response is passed through unchecked: the result of
    [verifyPayment] and [settlePayment] is the JSON value of the body as it
    is, whether or not it has the shape of a response. *)
Theorem ok_response_is_returned_unchecked url tx rcpt amt net E w r data :
  let network := default_to "stellar-testnet" net in
  ok r = true -> json r = inr data ->
  (net_fetch E w url
     (stringify (VObj [ ("signedTransaction", VStr tx);
                        ("expectedRecipient", VStr rcpt);
                        ("expectedAmount", VStr amt);
                        ("expectedNetwork", VStr network) ])) = inr r ->
   fst (verifyPayment url tx rcpt amt net E w) = Ok data)
  /\ (net_fetch E w url
        (stringify (VObj [ ("signedTransaction", VStr tx);
                           ("expectedNetwork", VStr network) ])) = inr r ->
      fst (settlePayment url tx net E w) = Ok data).
Proof.
  intros network Hok Hjson. split; intros Hreply.
  - rewrite verifyPayment_table. cbv zeta. fold network.
    rewrite Hreply, Hjson, Hok. reflexivity.
  - rewrite settlePayment_table. cbv zeta. fold network.
    rewrite Hreply, Hjson, Hok. reflexivity.
Qed.

(** X5 at a 200 with a JSON string and at a 200 with [null]. *)
Lemma ok_response_is_returned_unchecked_witness :
  fst (verifyPayment "https://facilitator.example/verify" "AAAAAgAAAAA=" "GDEST"
         "1000000" None (answering 200 (inr (VStr "pong"))) start)
  = Ok (VStr "pong")
  /\ VerifyPaymentResponse (VStr "pong") = false
  /\ fst (settlePayment "https://facilitator.example/settle" "AAAAAgAAAAA="
            None (answering 200 (inr VNull)) start) = Ok VNull.
Proof.
  split; [|split; [reflexivity|]].
  - apply (ok_response_is_returned_unchecked
             "https://facilitator.example/verify" "AAAAAgAAAAA=" "GDEST" "1000000"
             None (answering 200 (inr (VStr "pong"))) start
             {| status := 200; json := inr (VStr "pong") |} (VStr "pong")
             eq_refl eq_refl).
    reflexivity.
  - apply (ok_response_is_returned_unchecked
             "https://facilitator.example/settle" "AAAAAgAAAAA=" "GDEST" "1000000"
             None (answering 200 (inr VNull)) start
             {| status := 200; json := inr VNull |} VNull eq_refl eq_refl).
    reflexivity.
Defined.

(** X6. Settling and then building the payment response: after every failed
    call the response object has only [undefined] fields besides the
    currency, so its JSON text is [{"currency":"XLM"}]; the composition
    throws exactly when the facilitator answers ok with the body [null] (or
    no value). *)
Theorem settle_then_respond url tx net E w :
  let reply :=
    net_fetch E w url
      (stringify (VObj [ ("signedTransaction", VStr tx);
                         ("expectedNetwork",
                          VStr (default_to "stellar-testnet" net)) ])) in
  let run := bind (settlePayment url tx net) createPaymentResponse E w in
  (call_failed reply ->
   exists v, fst run = Ok v
             /\ stringify v = Some ("{" ++ quote "currency" ++ ":" ++ quote "XLM" ++ "}"))
  /\ ((exists e, fst run = Throw e)
      <-> exists r, reply = inr r /\ ok r = true
                    /\ (json r = inr VNull \/ json r = inr VUndefined)).
Proof.
  intros reply run. subst run. unfold bind.
  rewrite settlePayment_table. cbv zeta. fold reply.
  destruct reply as [e|r] eqn:Hreply.
  { split.
    - intros _. eexists. split; reflexivity.
    - split; [intros [e' H]; discriminate|intros [r [H _]]; discriminate]. }
  destruct (json r) as [e|data] eqn:Hjson.
  { split.
    - intros _. eexists. split; reflexivity.
    - split; [intros [e' H]; discriminate|].
      intros [r' [[= <-] [_ [H|H]]]]; congruence. }
  destruct (ok r) eqn:Hok.
  - split; [intros H; simpl in H; congruence|].
    split.
    + intros [e' H]. exists r. split; [reflexivity|]. split; [assumption|].
      destruct data; try discriminate; auto.
    + intros [r' [[= <-] [_ [H|H]]]]; rewrite Hjson in H; injection H as ->;
        eexists; reflexivity.
  - split.
    + intros _. destruct data; eexists; split; reflexivity.
    + split.
      * intros [e' H]. destruct data; discriminate.
      * intros [r' [[= <-] [H _]]]. congruence.
Qed.

(** X6 at a facilitator that cannot be reached. *)
Lemma settle_then_respond_witness :
  exists v,
    fst (bind (settlePayment "https://facilitator.example/settle" "AAAAAgAAAAA=" None)
           createPaymentResponse offline start) = Ok v
    /\ stringify v = Some ("{" ++ quote "currency" ++ ":" ++ quote "XLM" ++ "}").
Proof.
  apply (settle_then_respond "https://facilitator.example/settle" "AAAAAgAAAAA="
           None offline start).
  exact I.
Defined.

(** ** More on the Stellar utilities *)

(** X7. [getAccountBalance] never throws.  It returns ["0"] when the account
    cannot be loaded and when the account has no native balance; otherwise it
    returns what [xlmToStroops] gives for the first native balance. *)
Theorem getAccountBalance_is_xlmToStroops_of_native_balance
    accountAddress network E w :
  fst (getAccountBalance accountAddress network E w)
  = Ok match net_loadAccount E w (getHorizonClient network) accountAddress with
       | inl _ => "0"
       | inr account =>
           match find is_native (balances account) with
           | None => "0"
           | Some nativeBalance => xlmToStroops (balance nativeBalance)
           end
       end.
Proof.
  unfold getAccountBalance, try_catch, bind, call, ret.
  rewrite getHorizonClient_default.
  destruct (net_loadAccount E w (getHorizonClient network) accountAddress)
    as [e|account]; [reflexivity|].
  destruct (find is_native (balances account)); reflexivity.
Qed.

Lemma get_of_truthy (d : value) (k : string) :
  truthy d = true -> get d k = inr (get_opt d k).
Proof. destruct d; try discriminate; reflexivity. Qed.

(** [server.submitTransaction] for a transaction without memo and with one
    payment. *)
Lemma submitTransaction_single horizon tx payment E w :
  tx_memo tx = None ->
  tx_operations tx = [ payment ] ->
  let w1 := after_request E w (LoadAccount horizon (destination payment)) in
  Sdk.submitTransaction horizon tx E w
  = if Sdk.is_muxed (destination payment) then posted E horizon tx w
    else
      match net_loadAccount E w horizon (destination payment) with
      | inl e => if Sdk.is_NotFoundError e then posted E horizon tx w1
                 else (Throw e, w1)
      | inr account =>
          if Sdk.requires_memo account then (Throw Sdk.account_requires_memo, w1)
          else posted E horizon tx w1
      end.
Proof.
  intros Hmemo Hops w1.
  unfold Sdk.submitTransaction, Sdk.checkMemoRequired, posted.
  rewrite Hmemo, Hops. cbn [Sdk.check_destinations existsb].
  destruct (Sdk.is_muxed (destination payment)).
  { unfold bind, ret, call.
    destruct (net_submitTransaction E w horizon tx); reflexivity. }
  unfold bind, try_catch, call, ret, throw. fold w1.
  destruct (net_loadAccount E w horizon (destination payment)) as [e|account].
  - destruct (Sdk.is_NotFoundError e); [|reflexivity].
    destruct (net_submitTransaction E w1 horizon tx); reflexivity.
  - destruct (Sdk.requires_memo account); [reflexivity|].
    destruct (net_submitTransaction E w1 horizon tx); reflexivity.
Qed.

(** What [signAndSubmitPayment] does once the transaction is built. *)
Lemma signAndSubmitPayment_table kp dest amt network memo E w :
  let horizon := getHorizonClient network in
  let w1 := after_request E w (LoadAccount horizon (publicKey kp)) in
  signAndSubmitPayment kp dest amt network memo E w
  = match fst (buildPaymentTransaction kp dest amt network memo E w) with
    | Ok tx =>
        match secret kp with
        | None => (Throw Sdk.cannot_sign, w1)
        | Some _ =>
            match Sdk.submitTransaction horizon (signed_by E kp tx) E w1 with
            | (Throw e, w2) => (Throw (submission_error e), w2)
            | r => r
            end
        end
    | Throw e => (Throw e, w1)
    | OutOfFuel => (OutOfFuel, w1)
    end.
Proof.
  intros horizon w1. unfold signAndSubmitPayment.
  unfold bind at 1.
  assert (Hb : buildPaymentTransaction kp dest amt
                 (Some (default_to "stellar-testnet" network)) memo E w
               = buildPaymentTransaction kp dest amt network memo E w)
    by reflexivity.
  rewrite Hb, getHorizonClient_default. fold horizon.
  pose proof (buildPaymentTransaction_log kp dest amt network memo E w) as Hlog.
  fold horizon in Hlog. fold w1 in Hlog.
  destruct (buildPaymentTransaction kp dest amt network memo E w)
    as [[tx|e|] w'] eqn:Hbuild; simpl in Hlog; subst w'; simpl fst; cbv iota;
    [|reflexivity|reflexivity].
  unfold bind at 1. unfold Sdk.sign.
  destruct (secret kp) as [sk|]; [|reflexivity].
  unfold ret at 1. fold (signed_by E kp tx). unfold try_catch.
  destruct (Sdk.submitTransaction horizon (signed_by E kp tx) E w1)
    as [[hash|e|] w2]; [reflexivity| |reflexivity].
  unfold submission_error.
  destruct (truthy (response_data e)) eqn:Ht; [|reflexivity].
  unfold bind, lift. rewrite (get_of_truthy _ "extras" Ht). reflexivity.
Qed.

(** X8. A memo cannot be given.  With a non-empty memo,
    [buildPaymentTransaction] and [signAndSubmitPayment] load the source
    account and then throw, the same error: the error of that load, or the
    SDK's refusal of the payment, or else the [TypeError] of reading [text]
    of [Horizon.Memo], which the SDK's [Horizon] does not have.  Nothing is
    signed or submitted. *)
Theorem memo_cannot_be_given kp dest amt network memo E w :
  provided memo = true ->
  let horizon := getHorizonClient network in
  let w1 := after_request E w (LoadAccount horizon (publicKey kp)) in
  let e := match net_loadAccount E w horizon (publicKey kp) with
           | inl e' => e'
           | inr _ =>
               match sdk_payment E dest amt with
               | inl e' => e'
               | inr _ => type_error "undefined" "text"
               end
           end in
  buildPaymentTransaction kp dest amt network memo E w = (Throw e, w1)
  /\ signAndSubmitPayment kp dest amt network memo E w = (Throw e, w1).
Proof.
  intros Hmemo horizon w1 e.
  assert (Hb : buildPaymentTransaction kp dest amt network memo E w = (Throw e, w1)).
  { unfold e, w1, horizon.
    unfold buildPaymentTransaction, bind, call, lift, ret, throw.
    rewrite getHorizonClient_default.
    destruct (net_loadAccount E w (getHorizonClient network) (publicKey kp));
      [reflexivity|].
    destruct (sdk_payment E dest amt); [reflexivity|].
    rewrite Hmemo. reflexivity. }
  split; [exact Hb|].
  rewrite signAndSubmitPayment_table. cbv zeta. rewrite Hb. reflexivity.
Qed.

(** X8 for a payment with the memo ["invoice 7"]. *)
Lemma memo_cannot_be_given_witness :
  signAndSubmitPayment source_key "GDEST" "0.1" None (Some "invoice 7")
    funded start
  = (Throw (JsError "Cannot read properties of undefined (reading 'text')" None),
     {| now := 150;
        log := [ Net (LoadAccount (getHorizonClient None) "GSRC") ] |}).
Proof.
  apply (memo_cannot_be_given source_key "GDEST" "0.1" None (Some "invoice 7")
           funded start eq_refl).
Defined.

(** X9. When [signAndSubmitPayment] returns a hash, the key pair has a
    secret key and no memo was given, and the function has done this, in
    this order, all on the Horizon server of the network: it loaded the
    source account; it loaded the account of the payment's destination
    (unless that is a multiplexed address), which Horizon did not know or
    which does not require a memo; it posted the transaction of
    [buildPaymentTransaction] (the one payment that the SDK made of the
    destination and the amount, on the passphrase of the same network, no
    memo) with one signature, that of the source key pair.  The hash is
    Horizon's answer to that post. *)
Theorem returned_hash_is_of_the_submitted_payment
    kp dest amt network memo E w hash :
  fst (signAndSubmitPayment kp dest amt network memo E w) = Ok hash ->
  let horizon := getHorizonClient network in
  let w1 := after_request E w (LoadAccount horizon (publicKey kp)) in
  exists tx payment,
    let signed := signed_by E kp tx in
    let check := LoadAccount horizon (destination payment) in
    let w2 := if Sdk.is_muxed (destination payment) then w1
              else after_request E w1 check in
    fst (buildPaymentTransaction kp dest amt network memo E w) = Ok tx
    /\ secret kp <> None
    /\ provided memo = false
    /\ sdk_payment E dest amt = inr payment
    /\ tx_operations signed = [ payment ]
    /\ tx_memo signed = None
    /\ tx_signatures signed = [(publicKey kp, sdk_sign E kp tx)]
    /\ network_of_passphrase (tx_networkPassphrase signed)
       = network_of_server horizon
    /\ (Sdk.is_muxed (destination payment) = false ->
        match net_loadAccount E w1 horizon (destination payment) with
        | inl e => Sdk.is_NotFoundError e = true
        | inr account => Sdk.requires_memo account = false
        end)
    /\ net_submitTransaction E w2 horizon signed = inr hash
    /\ snd (signAndSubmitPayment kp dest amt network memo E w)
       = after_request E w2 (SubmitTransaction horizon signed).
Proof.
  intros H horizon w1. rewrite signAndSubmitPayment_table in *. cbv zeta in *.
  fold horizon in H |- *. fold w1 in H |- *.
  destruct (fst (buildPaymentTransaction kp dest amt network memo E w))
    as [tx|e|] eqn:Hbuild; try discriminate.
  destruct (buildPaymentTransaction_built kp dest amt network memo E w tx Hbuild)
    as [account [payment [Hacc [Hpay [Hmemo Htx]]]]].
  destruct (secret kp) as [sk|] eqn:Hsk; [|discriminate].
  exists tx, payment.
  assert (Hm : tx_memo (signed_by E kp tx) = None) by (rewrite Htx; reflexivity).
  assert (Ho : tx_operations (signed_by E kp tx) = [ payment ])
    by (rewrite Htx; reflexivity).
  rewrite (submitTransaction_single horizon _ payment E w1 Hm Ho) in H |- *.
  cbv zeta in *.
  split; [reflexivity|]. split; [discriminate|]. split; [exact Hmemo|].
  split; [exact Hpay|]. split; [exact Ho|]. split; [exact Hm|].
  split; [rewrite Htx; reflexivity|].
  split; [rewrite Htx; simpl; apply same_network|].
  unfold posted in *.
  destruct (Sdk.is_muxed (destination payment)).
  - split; [discriminate|].
    destruct (net_submitTransaction E w1 horizon (signed_by E kp tx)) as [e|h];
      [discriminate|].
    simpl in H. injection H as ->. split; reflexivity.
  - destruct (net_loadAccount E w1 horizon (destination payment)) as [e|acc].
    + destruct (Sdk.is_NotFoundError e); [|discriminate].
      split; [reflexivity|].
      destruct (net_submitTransaction E _ horizon (signed_by E kp tx)) as [e'|h];
        [discriminate|].
      simpl in H. injection H as ->. split; reflexivity.
    + destruct (Sdk.requires_memo acc); [discriminate|].
      split; [reflexivity|].
      destruct (net_submitTransaction E _ horizon (signed_by E kp tx)) as [e'|h];
        [discriminate|].
      simpl in H. injection H as ->. split; reflexivity.
Qed.

(** X9 for a payment of 0.1 XLM on the test network. *)
Lemma returned_hash_is_of_the_submitted_payment_witness :
  fst (signAndSubmitPayment source_key "GDEST" "0.1" (Some "testnet") None
         funded start) = Ok "ab12"
  /\ exists tx payment,
       snd (signAndSubmitPayment source_key "GDEST" "0.1" (Some "testnet")
              None funded start)
       = after_request funded
           (after_request funded
              (after_request funded start
                 (LoadAccount (getHorizonClient (Some "testnet")) "GSRC"))
              (LoadAccount (getHorizonClient (Some "testnet")) "GDEST"))
           (SubmitTransaction (getHorizonClient (Some "testnet"))
              (signed_by funded source_key tx))
       /\ tx_operations (signed_by funded source_key tx) = [ payment ]
       /\ payment = {| destination := "GDEST"; asset := Native;
                       amount := "0.1000000" |}
       /\ tx_signatures (signed_by funded source_key tx) = [("GSRC", "GSRC")].
Proof.
  split; [reflexivity|].
  destruct (returned_hash_is_of_the_submitted_payment source_key "GDEST" "0.1"
              (Some "testnet") None funded start "ab12" eq_refl)
    as [tx [payment [_ [_ [_ [Hpay [Hops [_ [Hsig [_ [_ [_ Hw]]]]]]]]]]]].
  exists tx, payment.
  assert (Hp : payment = {| destination := "GDEST"; asset := Native;
                            amount := "0.1000000" |})
    by (simpl in Hpay; unfold tenth_xlm in Hpay; congruence).
  split; [|split; [exact Hops|split; [exact Hp|exact Hsig]]].
  rewrite Hw, Hp. reflexivity.
Defined.

(** X10. When [signAndSubmitPayment] throws, one of three things happened.
    The transaction could not be built (the source account could not be
    loaded, the SDK refused the payment, or a memo was given): nothing more
    was asked of Horizon and the error is the one of
    [buildPaymentTransaction].  Or the key pair has no secret key: nothing
    more was asked of Horizon and the error is the SDK's.  Or
    [server.submitTransaction] threw, from its check of the destination
    account or from the post: then the error is ["Transaction failed: "]
    followed by the JSON text of the result codes when the error carries
    response data, and the error itself when it carries none. *)
Theorem signAndSubmitPayment_errors kp dest amt network memo E w e :
  fst (signAndSubmitPayment kp dest amt network memo E w) = Throw e ->
  let horizon := getHorizonClient network in
  let w1 := after_request E w (LoadAccount horizon (publicKey kp)) in
  (fst (buildPaymentTransaction kp dest amt network memo E w) = Throw e
   /\ snd (signAndSubmitPayment kp dest amt network memo E w) = w1)
  \/ (exists tx,
        fst (buildPaymentTransaction kp dest amt network memo E w) = Ok tx
        /\ secret kp = None /\ e = Sdk.cannot_sign
        /\ snd (signAndSubmitPayment kp dest amt network memo E w) = w1)
  \/ (exists tx e0,
        fst (buildPaymentTransaction kp dest amt network memo E w) = Ok tx
        /\ secret kp <> None
        /\ fst (Sdk.submitTransaction horizon (signed_by E kp tx) E w1) = Throw e0
        /\ e = submission_error e0).
Proof.
  intros H horizon w1. rewrite signAndSubmitPayment_table in *. cbv zeta in *.
  fold horizon in H |- *. fold w1 in H |- *.
  destruct (fst (buildPaymentTransaction kp dest amt network memo E w))
    as [tx|e'|] eqn:Hbuild; try discriminate.
  - destruct (secret kp) as [sk|].
    + right. right. exists tx.
      destruct (Sdk.submitTransaction horizon (signed_by E kp tx) E w1)
        as [[h|e0|] w2]; try discriminate.
      exists e0. simpl in H. injection H as <-.
      split; [reflexivity|]. split; [discriminate|]. split; reflexivity.
    + right. left. exists tx. simpl in H. injection H as <-.
      repeat split.
  - left. simpl in H. injection H as ->. split; reflexivity.
Qed.

(** X10 in three cases: Horizon cannot be reached; a key pair made from a
    public key; a memo. *)
Lemma signAndSubmitPayment_errors_witness :
  (fst (signAndSubmitPayment source_key "GDEST" "0.1" None None offline start)
   = Throw fetch_failed
   /\ log (snd (signAndSubmitPayment source_key "GDEST" "0.1" None None offline start))
      = [ Net (LoadAccount (getHorizonClient None) "GSRC") ])
  /\ (fst (signAndSubmitPayment public_key "GDEST" "0.1" None None funded start)
      = Throw (JsError "cannot sign: no secret key available" None)
      /\ log (snd (signAndSubmitPayment public_key "GDEST" "0.1" None None funded start))
         = [ Net (LoadAccount (getHorizonClient None) "GSRC") ])
  /\ fst (signAndSubmitPayment source_key "GDEST" "0.1" None (Some "invoice 7")
            funded start)
     = Throw (JsError "Cannot read properties of undefined (reading 'text')" None).
Proof.
  split; [|split].
  - split; [reflexivity|].
    destruct (signAndSubmitPayment_errors source_key "GDEST" "0.1" None None
                offline start fetch_failed eq_refl)
      as [[_ Hw]|[[tx [Hb _]]|[tx [e0 [Hb _]]]]].
    + rewrite Hw. reflexivity.
    + discriminate.
    + discriminate.
  - split; [reflexivity|].
    destruct (signAndSubmitPayment_errors public_key "GDEST" "0.1" None None
                funded start Sdk.cannot_sign eq_refl)
      as [[Hb _]|[[tx [_ [_ [_ Hw]]]]|[tx [e0 [_ [Hs _]]]]]].
    + discriminate.
    + rewrite Hw. reflexivity.
    + exfalso. apply Hs. reflexivity.
  - reflexivity.
Defined.

(** X11. An expectation that is the empty string is no expectation:
    [verifyTransaction] treats it as if it had not been given.  So with three
    empty expectations every successful transaction is verified. *)
Theorem empty_expectations_are_ignored hash network sender recipient amount E w :
  verifyTransaction hash network (Some "") recipient amount E w
  = verifyTransaction hash network None recipient amount E w
  /\ verifyTransaction hash network sender (Some "") amount E w
     = verifyTransaction hash network sender None amount E w
  /\ verifyTransaction hash network sender recipient (Some "") E w
     = verifyTransaction hash network sender recipient None E w
  /\ fst (verifyTransaction hash network (Some "") (Some "") (Some "") E w)
     = Ok match net_transaction E w (getHorizonClient network) hash with
          | inr tx => successful tx
          | inl _ => false
          end.
Proof.
  split; [reflexivity|]. split; [reflexivity|]. split; [reflexivity|].
  unfold verifyTransaction, try_catch, bind, call, ret.
  rewrite getHorizonClient_default.
  destruct (net_transaction E w (getHorizonClient network) hash) as [e|tx];
    [reflexivity|].
  destruct (successful tx); reflexivity.
Qed.

(** X12. [verifyTransaction] asks Horizon for the transaction, and for its
    operations only when they are needed: when the transaction was
    successful, some expectation is provided and the provided sender is its
    source account.  Otherwise it makes one request. *)
Theorem operations_are_looked_up_only_when_needed
    hash network sender recipient amount E w :
  let horizon := getHorizonClient network in
  log (snd (verifyTransaction hash network sender recipient amount E w))
  = if needs_operations (net_transaction E w horizon hash) sender recipient amount
    then Net (GetOperations horizon hash) :: Net (GetTransaction horizon hash) :: log w
    else Net (GetTransaction horizon hash) :: log w.
Proof.
  intros horizon. unfold verifyTransaction, try_catch, bind, call, ret,
    needs_operations.
  rewrite getHorizonClient_default. fold horizon. clearbody horizon.
  destruct (net_transaction E w horizon hash) as [e|tx]; [reflexivity|].
  destruct (successful tx); [|reflexivity]. cbn [negb andb].
  destruct (provided sender) eqn:Hs; cbn [negb andb orb].
  - destruct (differs (Some (source_account tx)) (default_to "" sender));
      [reflexivity|]. cbn [negb].
    destruct (net_operations E _ horizon hash) as [e|ops]; [reflexivity|].
    destruct (find is_native_payment ops) as [p|]; [|reflexivity].
    destruct (provided recipient && _); [reflexivity|].
    destruct (provided amount && _); reflexivity.
  - destruct (provided recipient) eqn:Hr; cbn [negb andb orb].
    + destruct (net_operations E _ horizon hash) as [e|ops]; [reflexivity|].
      destruct (find is_native_payment ops) as [p|]; [|reflexivity].
      destruct (differs (op_to p) (default_to "" recipient)); [reflexivity|].
      destruct (provided amount && _); reflexivity.
    + destruct (provided amount) eqn:Ha; cbn [negb andb orb]; [|reflexivity].
      destruct (net_operations E _ horizon hash) as [e|ops]; [reflexivity|].
      destruct (find is_native_payment ops) as [p|]; [|reflexivity].
      destruct (differs (op_amount p) (default_to "" amount)); reflexivity.
Qed.

Lemma find_first (A : Type) (f : A -> bool) (pre : list A) (p : A) (rest : list A) :
  Forall (fun o => f o = false) pre -> f p = true ->
  find f (pre ++ p :: rest)%list = Some p.
Proof.
  intros Hpre Hp. induction Hpre as [|o pre Ho _ IH]; simpl.
  - now rewrite Hp.
  - now rewrite Ho.
Qed.

(** X13. Only the first native payment of a transaction counts: when it pays
    another account than the expected recipient, or another amount than the
    expected one, [verifyTransaction] returns [false], whatever the later
    operations of the transaction are. *)
Theorem only_the_first_native_payment_counts
    hash network sender recipient amount E w tx pre p rest :
  let horizon := getHorizonClient network in
  net_transaction E w horizon hash = inr tx ->
  net_operations E (after_request E w (GetTransaction horizon hash)) horizon hash
  = inr (pre ++ p :: rest)%list ->
  Forall (fun o => is_native_payment o = false) pre ->
  is_native_payment p = true ->
  (provided recipient = true /\ op_to p <> recipient)
  \/ (provided amount = true /\ op_amount p <> amount) ->
  fst (verifyTransaction hash network sender recipient amount E w) = Ok false.
Proof.
  intros horizon Htx Hops Hpre Hp Hmis.
  destruct (verifyTransaction_run hash network sender recipient amount E w)
    as [b [Hb Hiff]].
  rewrite Hb. f_equal. destruct b; [exfalso|reflexivity].
  destruct (proj1 Hiff eq_refl) as [tx1 [_ [_ [[_ [Hr Ha]]|[_ Hright]]]]].
  - destruct Hmis as [[H _]|[H _]]; congruence.
  - destruct Hright as [ops [payment [Hops1 [Hfind [Hmr Hma]]]]].
    fold horizon in Hops1. rewrite Hops in Hops1. injection Hops1 as <-.
    rewrite (find_first _ _ _ _ _ Hpre Hp) in Hfind. injection Hfind as <-.
    destruct Hmis as [[H Hne]|[H Hne]]; [apply Hne, Hmr, H|apply Hne, Hma, H].
Qed.

(** X13 at a transaction that pays [GOTHER] first and [GDEST] second, and at
    an expected amount written ["0.1"] where Horizon writes ["0.1000000"]. *)
Lemma only_the_first_native_payment_counts_witness :
  fst (verifyTransaction "ab12" None None (Some "GDEST") None two_payments start)
  = Ok false
  /\ fst (verifyTransaction "ab12" None None None (Some "0.1") confirmed start)
     = Ok false.
Proof.
  split.
  - eapply (only_the_first_native_payment_counts "ab12" None None (Some "GDEST")
              None two_payments start _
              [ {| op_type := "create_account"; op_asset_type := None;
                   op_to := None; op_amount := None |} ]
              {| op_type := "payment"; op_asset_type := Some "native";
                 op_to := Some "GOTHER"; op_amount := Some "1.0000000" |}
              [ {| op_type := "payment"; op_asset_type := Some "native";
                   op_to := Some "GDEST"; op_amount := Some "0.1000000" |} ]).
    + reflexivity.
    + reflexivity.
    + repeat constructor.
    + reflexivity.
    + left. split; [reflexivity|discriminate].
  - eapply (only_the_first_native_payment_counts "ab12" None None None
              (Some "0.1") confirmed start _ []
              {| op_type := "payment"; op_asset_type := Some "native";
                 op_to := Some "GDEST"; op_amount := Some "0.1000000" |} []).
    + reflexivity.
    + reflexivity.
    + constructor.
    + reflexivity.
    + right. split; [reflexivity|discriminate].
Defined.

(** ** More on the polling loop *)

(** X14. When [timeoutSeconds * 1000] is not above zero (a timeout of zero,
    a negative one, one that is not a number), [waitForTransaction] throws
    the timeout error at once: it makes no request and sets no timer.  The
    error names the timeout as JavaScript prints the number. *)
Theorem no_wait_without_timeout fuel hash network seconds E w :
  Number.lt_Z 0 (PrimFloat.mul seconds (Number.of_Z 1000)) = false ->
  waitForTransaction (S fuel) hash network (Some seconds) E w
  = (Throw (timeout_error seconds), w).
Proof.
  intros H. rewrite waitForTransaction_unfold, waitForTransaction_loop_step.
  cbn [default_to]. replace (now w - now w) with 0 by lia.
  rewrite H. reflexivity.
Qed.

(** X14 at timeouts of zero, of minus 10^21 seconds and of no number. *)
Lemma no_wait_without_timeout_witness :
  waitForTransaction 1 "ab12" None (Some PrimFloat.zero) confirmed start
  = (Throw (JsError "Transaction not found after 0 seconds" None), start)
  /\ waitForTransaction 1 "ab12" None
       (Some (Number.of_Z (- 1000000000000000000000))) confirmed start
     = (Throw (JsError "Transaction not found after -1e+21 seconds" None), start)
  /\ waitForTransaction 1 "ab12" None (Some PrimFloat.nan) confirmed start
     = (Throw (JsError "Transaction not found after NaN seconds" None), start).
Proof.
  split; [|split].
  - refine (eq_trans (no_wait_without_timeout 0 "ab12" None PrimFloat.zero
                        confirmed start _) _); vm_compute; reflexivity.
  - refine (eq_trans (no_wait_without_timeout 0 "ab12" None
                        (Number.of_Z (- 1000000000000000000000))
                        confirmed start _) _); vm_compute; reflexivity.
  - refine (eq_trans (no_wait_without_timeout 0 "ab12" None PrimFloat.nan
                        confirmed start _) _); vm_compute; reflexivity.
Defined.

(** The loop ends at most one latency, one second and one lag after the
    last moment at which a pass may start. *)
Lemma waitForTransaction_loop_overshoot
    E horizon hash startTime timeoutMs timeoutSeconds limit L J :
  limit_ms timeoutMs = Some limit ->
  (forall v q, Z.of_N (latency E v q) <= L) ->
  (forall v ms, Z.of_N (timer_lag E v ms) <= J) ->
  forall fuel w,
    now (snd (waitForTransaction_loop fuel horizon hash startTime timeoutMs
                timeoutSeconds E w)) - startTime
    <= Z.max (now w - startTime) (limit + L + J + 999).
Proof.
  intros Hlimit HL HJ.
  induction fuel as [|fuel IH]; intros w; [simpl; lia|].
  rewrite waitForTransaction_loop_step.
  destruct (Number.lt_Z (now w - startTime) timeoutMs) eqn:Hlt; [|simpl; lia].
  pose proof (lt_Z_limit _ _ _ Hlt Hlimit) as Hz.
  pose proof (HL w (GetTransaction horizon hash)) as Hl.
  assert (H0 : 0 <= J) by (pose proof (HJ w 0); lia).
  destruct (net_transaction E w horizon hash) as [e|tx]; [|simpl; lia].
  destruct (is_not_found e); [|simpl; lia].
  specialize (IH (slept E 1000 (after_request E w (GetTransaction horizon hash)))).
  pose proof (HJ (after_request E w (GetTransaction horizon hash)) 1000) as Hj.
  simpl in IH. simpl in Hj. lia.
Qed.

(** X15. [waitForTransaction] with a timeout that is not infinite ends, and
    overshoots its timeout by less than one request and one timer: when no
    request takes longer than [L] milliseconds and no timer fires more than
    [J] milliseconds late, it ends at most [limit + L + J + 999]
    milliseconds after it started, where [limit] is [timeoutSeconds * 1000]
    rounded up to whole milliseconds. *)
Theorem waitForTransaction_ends_in_time
    fuel hash network timeoutSeconds E w limit L J :
  limit_ms (PrimFloat.mul (default_to (Number.of_Z 30) timeoutSeconds)
              (Number.of_Z 1000)) = Some limit ->
  (forall v q, Z.of_N (latency E v q) <= L) ->
  (forall v ms, Z.of_N (timer_lag E v ms) <= J) ->
  (passes_left limit < fuel)%nat ->
  fst (waitForTransaction fuel hash network timeoutSeconds E w) <> OutOfFuel
  /\ now (snd (waitForTransaction fuel hash network timeoutSeconds E w)) - now w
     <= Z.max 0 (limit + L + J + 999).
Proof.
  intros Hlimit HL HJ Hfuel. rewrite waitForTransaction_unfold. split.
  - apply (waitForTransaction_loop_ends E _ hash (now w) _ _ limit Hlimit).
    replace (limit - (now w - now w)) with limit by lia. exact Hfuel.
  - pose proof (waitForTransaction_loop_overshoot E (getHorizonClient network)
                  hash (now w) _ (default_to (Number.of_Z 30) timeoutSeconds)
                  limit L J Hlimit HL HJ fuel w) as H.
    replace (now w - now w) with 0 in H by lia. exact H.
Qed.

(** X15 at a timeout of 2.5 seconds, requests of 200 ms and timers that
    fire 15 ms late: the wait ends 3645 ms after it started. *)
Lemma waitForTransaction_ends_in_time_witness :
  fst (waitForTransaction 4 "ab12" None (Some (Number.parseFloat "2.5"))
         slow_never_found start) <> OutOfFuel
  /\ now (snd (waitForTransaction 4 "ab12" None (Some (Number.parseFloat "2.5"))
                 slow_never_found start)) - 0
     <= 3714
  /\ now (snd (waitForTransaction 4 "ab12" None (Some (Number.parseFloat "2.5"))
                 slow_never_found start)) = 3645.
Proof.
  destruct (waitForTransaction_ends_in_time 4 "ab12" None
              (Some (Number.parseFloat "2.5")) slow_never_found start 2500 200 15)
    as [H1 H2].
  - vm_compute. reflexivity.
  - intros v q. simpl. lia.
  - intros v ms. simpl. lia.
  - vm_compute. lia.
  - split; [exact H1|]. split; [exact H2|]. vm_compute. reflexivity.
Defined.



(** ** More on the unit conversions *)

(** X17. An amount that is empty, blank, or starts (after leading white
    space) with a character that cannot start a number is not rejected: both
    conversions return the string ["NaN"]. *)
Theorem not_a_number_converts_to_NaN (s : string) :
  JsString.trim_start s = ""
  \/ (exists c r, JsString.trim_start s = String c r /\ starts_a_number c = false) ->
  xlmToStroops s = "NaN" /\ stroopsToXlm s = "NaN".
Proof.
  unfold xlmToStroops, stroopsToXlm, Number.parseFloat, Number.parseInt.
  intros [->|[c [r [-> Hc]]]]; [split; vm_compute; reflexivity|].
  destruct c as [[] [] [] [] [] [] [] []]; try discriminate Hc;
    split; reflexivity.
Qed.

(** X17 at a word and at the empty string. *)
Lemma not_a_number_converts_to_NaN_witness :
  xlmToStroops "  ten" = "NaN" /\ stroopsToXlm "" = "NaN".
Proof.
  split.
  - apply (not_a_number_converts_to_NaN "  ten"). right.
    exists "t"%char, "en". split; reflexivity.
  - apply (not_a_number_converts_to_NaN ""). left. reflexivity.
Defined.

Lemma round_trip_checked :
  forallb loses_at_most_one (seq 0 1000) = true
  /\ forallb whole_xlm_exact (seq 0 1000) = true.
Proof. split; vm_compute; reflexivity. Qed.

(** X18. For every amount below 1000 stroops the round trip
    [xlmToStroops (stroopsToXlm s)] gives back the amount or one stroop less,
    never more; and for every whole number of XLM below 1000, written in
    stroops, it is exact. *)
Theorem round_trip_loses_at_most_one_stroop (n : nat) :
  (n < 1000)%nat ->
  let s := JsString.of_Z (Z.of_nat n) in
  let whole := JsString.of_Z (Z.of_nat n * 10000000) in
  (xlmToStroops (stroopsToXlm s) = s
   \/ xlmToStroops (stroopsToXlm s) = JsString.of_Z (Z.of_nat n - 1))
  /\ xlmToStroops (stroopsToXlm whole) = whole.
Proof.
  intros Hn s whole. destruct round_trip_checked as [H1 H2].
  rewrite forallb_forall in H1, H2.
  assert (Hin : In n (seq 0 1000)) by (apply in_seq; lia).
  specialize (H1 n Hin). specialize (H2 n Hin).
  unfold loses_at_most_one in H1. unfold whole_xlm_exact in H2.
  fold s in H1. fold whole in H2.
  apply orb_true_iff in H1. rewrite !String.eqb_eq in H1.
  apply String.eqb_eq in H2. auto.
Qed.

(** X18 at 57 stroops and at 57 XLM. *)
Lemma round_trip_loses_at_most_one_stroop_witness :
  xlmToStroops (stroopsToXlm "57") = "56"
  /\ xlmToStroops (stroopsToXlm "570000000") = "570000000".
Proof.
  destruct (round_trip_loses_at_most_one_stroop 57 ltac:(lia)) as [[H|H] Hw].
  - vm_compute in H. discriminate H.
  - split; [exact H|exact Hw].
Defined.
